(** * varcal_minion: the MinION variant-calling driver

    A shallow embedding of [varcal_minion.py]: the mapping stage
    [minimap2_mapping] and the driver under [if __name__ == '__main__'].
    Python strings are [string], the file system is a finite map from paths
    to nodes, and the code runs in a small monad that threads the file
    system, collects the calls and log lines it issues, and may raise. *)

From Stdlib Require Import ZArith Ascii String DecimalString.
From stdpp Require Import base strings list option gmap.


(** ** Python strings *)

Module Py.

(** [s.split(sep)] for a one-character separator: never empty. *)
Fixpoint split (sep : ascii) (s : string) : list string :=
  match s with
  | EmptyString => [EmptyString]
  | String c s' =>
      if Ascii.eqb c sep then EmptyString :: split sep s'
      else match split sep s' with
           | [] => [String c EmptyString]
           | w :: ws => String c w :: ws
           end
  end.

(** [sep.join(l)]. *)
Fixpoint join (sep : string) (l : list string) : string :=
  match l with
  | [] => EmptyString
  | [w] => w
  | w :: ws => w +:+ sep +:+ join sep ws
  end.

(** [l[i]] for [i >= 0]: [None] stands for [IndexError]. *)
Definition index {A} (l : list A) (i : nat) : option A := l !! i.

(** [l[-1]]. *)
Definition index_last {A} (l : list A) : option A := last l.

(** [c in s] for a character [c]. *)
Fixpoint contains (c : ascii) (s : string) : bool :=
  match s with
  | EmptyString => false
  | String d s' => Ascii.eqb d c || contains c s'
  end.

(** [s.startswith(c)] and [s.endswith(c)] for a character [c]. *)
Definition startswith (c : ascii) (s : string) : bool :=
  match s with
  | String d _ => Ascii.eqb d c
  | EmptyString => false
  end.

Fixpoint endswith (c : ascii) (s : string) : bool :=
  match s with
  | EmptyString => false
  | String d EmptyString => Ascii.eqb d c
  | String _ s' => endswith c s'
  end.


(** [str(n)] for a length. *)
Definition str_of_nat (n : nat) : string :=
  NilEmpty.string_of_uint (Nat.to_uint n).

(** [posixpath.join(a, b)]. *)
Definition path_join (a b : string) : string :=
  if startswith "/" b then b
  else if bool_decide (a = EmptyString) || endswith "/" a then a +:+ b
  else a +:+ "/" +:+ b.

End Py.

(** ** Terminal formatting constants of the module *)

Definition ESC : string := String "027" EmptyString.
Definition LF : string := String "010" EmptyString.

Definition END_FORMATTING : string := ESC +:+ "[0m".
Definition BOLD : string := ESC +:+ "[1m".
Definition GREEN : string := ESC +:+ "[32m".
Definition MAGENTA : string := ESC +:+ "[35m".
Definition BLUE : string := ESC +:+ "[34m".
Definition CYAN : string := ESC +:+ "[36m".
Definition YELLOW : string := ESC +:+ "[93m".

(** ** File system, calls and the execution monad *)

(** A path holds a directory or a regular file with its content and
    modification time. *)
Inductive node : Type :=
  | Dir
  | File (content : string) (mtime : Z).

Abbreviation FS := (gmap string node).

Definition isfile (fs : FS) (p : string) : bool :=
  match fs !! p with
  | Some (File _ _) => true
  | _ => false
  end.

Definition exists_path (fs : FS) (p : string) : bool :=
  match fs !! p with
  | Some _ => true
  | None => false
  end.

(** The first argument of [execute_subprocess]: a shell line (a [str]) or
    an argument vector (a tuple). *)
Inductive command : Type :=
  | Line (s : string)
  | Argv (l : list string).

(** The parsed command line, [argparse.Namespace]. *)
Record Args : Type := {
  arg_input_dir : string;
  arg_sample : option string;
  arg_sample_list : option string;
  arg_primers : option string;
  arg_threads : Z;
  arg_bayes : bool;
  arg_min_frequency : Z;
  arg_min_quality : Z;
  arg_min_mapping : Z;
  arg_reference : string;
  arg_ploidy : Z;
  arg_chunks : Z;
  arg_output : string
}.

(** What a run does that the outside can see, in the order it does it: the
    lines given to [logger.info] and the calls to the helpers imported from
    [misc_ion]. *)
Inductive event : Type :=
  | Log (msg : string)
  | LogArgs (a : Args)
  | OpenLogFile (path : string)
  | CheckCreateDir (path : string)
  | ExtractReadList (dir : string)
  | FileToList (path : string)
  | ExecuteSubprocess (cmd : command) (isShell : bool)
  | SamtoolsFaidx (ref : string)
  | CreateReferenceChunks (ref : string) (num_chunks : Z).

Inductive exn : Type :=
  | IndexError
  | InvalidChunks
  | SubprocessError.

Inductive result (A : Type) : Type :=
  | Ok (a : A)
  | Raise (e : exn).
Arguments Ok {A} a.
Arguments Raise {A} e.

Record outcome (A : Type) : Type := Outcome {
  res : result A;
  fs_after : FS;
  events : list event
}.
Arguments Outcome {A} res fs_after events.
Arguments res {A} o.
Arguments fs_after {A} o.
Arguments events {A} o.

Definition M (A : Type) : Type := FS -> outcome A.

Definition ret {A} (a : A) : M A := fun fs => Outcome (Ok a) fs [].

Definition raise {A} (e : exn) : M A := fun fs => Outcome (Raise e) fs [].

Definition bind {A B} (m : M A) (k : A -> M B) : M B := fun fs =>
  let o := m fs in
  match res o with
  | Ok a =>
      let o' := k a (fs_after o) in
      Outcome (res o') (fs_after o') (events o ++ events o')
  | Raise e => Outcome (Raise e) (fs_after o) (events o)
  end.

Declare Scope run_scope.
Delimit Scope run_scope with run.
Notation "x <- m ;; k" := (bind m (fun x => k))
  (at level 100, m at next level, right associativity) : run_scope.
Notation "m ;;; k" := (bind m (fun _ => k))
  (at level 100, right associativity) : run_scope.
Open Scope run_scope.

Definition emit (e : event) : M unit := fun fs => Outcome (Ok tt) fs [e].

Definition read_fs {A} (f : FS -> A) : M A := fun fs => Outcome (Ok (f fs)) fs [].

Definition update_fs (f : FS -> FS) : M unit := fun fs => Outcome (Ok tt) (f fs) [].

(** [x = o] where a [None] raises [e]. *)
Definition or_raise {A} (e : exn) (o : option A) : M A :=
  match o with
  | Some a => ret a
  | None => raise e
  end.

(** [for x in l: body(x)]: the first exception ends the loop. *)
Fixpoint for_each {A} (l : list A) (body : A -> M unit) : M unit :=
  match l with
  | [] => ret tt
  | x :: l' => body x ;;; for_each l' body
  end.

Definition logger_info (msg : string) : M unit := emit (Log msg).

(** ** The host and the helpers of [misc_ion]

    [misc_ion] is imported, not defined, by the module. What its readers
    return, what the external programs do to the file system, and what the
    operating system answers are parameters of the model. The readers are
    taken to return to their caller; [execute_subprocess] is given twice,
    first for programs that end well, then, in [Checked], with the call
    that raises when the program fails. The listing of the input tree is
    the one [os.walk] yields in the course of the stage; the statements on
    the stage say which files of it the stage has reached. The log file, which every [logger.info] appends
    to, is kept apart from the modelled file system: it is the [Log]
    events. *)
Record host : Type := {
  (** [extract_read_list(dir)]: the read files found under [dir]. *)
  extract_read_list : string -> list string;
  (** [extract_sample_list(file)]: the sample key of a read file. *)
  extract_sample_list : string -> string;
  (** [file_to_list(path)]: the entries of the allow-list file. *)
  file_to_list : string -> list string;
  (** What running [cmd] through [execute_subprocess] does to the files. *)
  subprocess_effect : command -> bool -> FS -> FS;
  (** [os.walk(dir)]: each directory with the names of its files. *)
  os_walk : string -> list (string * list string);
  (** [os.path.abspath]. *)
  abspath : string -> string;
  (** [str(datetime.datetime.now())]. *)
  now : string;
  (** The node an indexing or chunking helper leaves at a path it writes. *)
  produced : string -> node;
  (** The path of the region list of a reference cut in [n] chunks. *)
  regions_path : string -> Z -> string
}.

Section Helpers.

Variable H : host.

(** [execute_subprocess] for programs that end well: the program runs and
    the call returns. The call that may raise is
    [Checked.execute_subprocess] below; the two agree when no program
    fails. *)
Definition execute_subprocess (cmd : command) (isShell : bool) : M unit :=
  emit (ExecuteSubprocess cmd isShell) ;;;
  update_fs (subprocess_effect H cmd isShell).

(** Modelled from the spec: [check_create_dir] of [misc_ion] is not among
    the sources. Section 4.2: create-if-absent, no error if already
    present, no side effect beyond the creation of the directory. *)
Definition check_create_dir (path : string) : M unit :=
  emit (CheckCreateDir path) ;;;
  update_fs (fun fs => if exists_path fs path then fs else <[path := Dir]> fs).

(** The index [samtools faidx] keeps next to a reference. *)
Definition fai_path (reference : string) : string := reference +:+ ".fai".

(** Modelled from the spec: [samtools_faidx] of [misc_ion] is not among
    the sources. Section 4.4: ensure a sequence index exists, create it if
    absent, reuse it if present. *)
Definition samtools_faidx (reference : string) : M unit :=
  emit (SamtoolsFaidx reference) ;;;
  update_fs (fun fs =>
    if exists_path fs (fai_path reference) then fs
    else <[fai_path reference := produced H (fai_path reference)]> fs).

(** Modelled from the spec: [create_reference_chunks] of [misc_ion] is not
    among the sources. Sections 4.4 and 8: a chunk count [N <= 0] is invalid
    and fails before the file system is touched; otherwise a region-list
    file is persisted. *)
Definition create_reference_chunks (reference : string) (num_chunks : Z) : M unit :=
  emit (CreateReferenceChunks reference num_chunks) ;;;
  if (num_chunks <=? 0)%Z then raise InvalidChunks
  else update_fs (fun fs =>
    <[regions_path H reference num_chunks :=
        produced H (regions_path H reference num_chunks)]> fs).

(** ** The mapping stage *)

(** [name.split('.')[0].split('_')[1]]. *)
Definition filename_out_of (name : string) : option string :=
  stem ← Py.index (Py.split "." name) 0;
  Py.index (Py.split "_" stem) 1.

Definition filename_bam_out_of (out_sorted_bam filename_out : string) : string :=
  Py.path_join out_sorted_bam (filename_out +:+ ".sort.bam").

Definition filename_bai_out_of (out_sorted_bam filename_out : string) : string :=
  Py.path_join out_sorted_bam (filename_out +:+ ".sort.bam.bai").

(** ['minimap2 -ax map-ont {} {} | samtools view -bS -F 4 - | samtools
    sort -o {}'.format(reference, HQ_filename, filename_bam_out)]. *)
Definition cmd_minimap2_of (reference HQ_filename filename_bam_out : string) : string :=
  "minimap2 -ax map-ont " +:+ reference +:+ " " +:+ HQ_filename
  +:+ " | samtools view -bS -F 4 - | samtools sort -o " +:+ filename_bam_out.

Definition cmd_indexing_of (filename_bam_out : string) : list string :=
  ["samtools"; "index"; filename_bam_out].

(** The body of the inner loop of [minimap2_mapping], for the file [name]
    of the directory [root]. *)
Definition map_one (out_sorted_bam reference root name : string) : M unit :=
  let HQ_filename := Py.path_join root name in
  filename_out <- or_raise IndexError (filename_out_of name) ;;
  let filename_bam_out := filename_bam_out_of out_sorted_bam filename_out in
  let filename_bai_out := filename_bai_out_of out_sorted_bam filename_out in
  indexed <- read_fs (fun fs => isfile fs filename_bai_out) ;;
  if indexed : bool then
    logger_info (YELLOW +:+ BOLD +:+ filename_bam_out
                 +:+ " EXIST" +:+ LF +:+ "Ommiting filtering for sample "
                 +:+ filename_out +:+ LF +:+ END_FORMATTING)
  else
    logger_info (GREEN +:+ "Mapping sample " +:+ filename_out +:+ END_FORMATTING) ;;;
    execute_subprocess
      (Line (cmd_minimap2_of reference HQ_filename filename_bam_out)) true ;;;
    execute_subprocess (Argv (cmd_indexing_of filename_bam_out)) false.

(** The two loops of [minimap2_mapping] over a listing [walk]. *)
Definition map_walk (walk : list (string * list string))
    (out_sorted_bam reference : string) : M unit :=
  for_each walk (fun '(root, files) =>
    for_each files (fun name => map_one out_sorted_bam reference root name)).

Definition minimap2_mapping (out_samples_filtered_dir out_sorted_bam reference : string)
  : M unit :=
  map_walk (os_walk H out_samples_filtered_dir) out_sorted_bam reference.

End Helpers.

(** ** The driver *)

Section Driver.

Variable H : host.

(** The list the driver reports: one key per read file, appended in the
    order of [fastq]. *)
Definition sample_list (fastq : list string) : list string :=
  map (extract_sample_list H) fastq.

(** The list kept under the name [sample_list_F]: the keys of the read
    files when [--sample_list] is absent, the content of the allow-list
    file otherwise. *)
Definition sample_list_F (args_sample_list : option string) (fastq : list string)
  : list string :=
  match args_sample_list with
  | None => map (extract_sample_list H) fastq
  | Some path => file_to_list H path
  end.

(** The paths declared under the comment "Declare folders created in
    pipeline and key files". *)
Record folders : Type := {
  out_bam_dir : string;
  out_variant_dir : string;
  out_stats_dir : string;
  out_stats_bamstats_dir : string;
  out_stats_coverage_dir : string;
  out_compare_dir : string;
  out_annot_dir : string;
  out_annot_snpeff_dir : string;
  out_annot_user_dir : string;
  out_annot_user_aa_dir : string;
  out_annot_blast_dir : string
}.

Definition folders_of (output_dir : string) : folders :=
  let out_stats_dir := Py.path_join output_dir "Stats" in
  let out_annot_dir := Py.path_join output_dir "Annotation" in
  {| out_bam_dir := Py.path_join output_dir "Bam";
     out_variant_dir := Py.path_join output_dir "Variants";
     out_stats_dir := out_stats_dir;
     out_stats_bamstats_dir := Py.path_join out_stats_dir "Bamstats";
     out_stats_coverage_dir := Py.path_join out_stats_dir "Coverage";
     out_compare_dir := Py.path_join output_dir "Compare";
     out_annot_dir := out_annot_dir;
     out_annot_snpeff_dir := Py.path_join out_annot_dir "snpeff";
     out_annot_user_dir := Py.path_join out_annot_dir "user";
     out_annot_user_aa_dir := Py.path_join out_annot_dir "user_aa";
     out_annot_blast_dir := Py.path_join out_annot_dir "blast" |}.

(** The declaration block of the driver: of the declared folders, the two
    passed to [check_create_dir]. *)
Definition declare_folders (output_dir : string) : M folders :=
  let f := folders_of output_dir in
  check_create_dir (out_bam_dir f) ;;;
  check_create_dir (out_variant_dir f) ;;;
  ret f.

(** The start of the driver, down to the first log lines. The absolute
    path of the reference that the source computes here is not used
    again: the stages are given [args.reference]. *)
Definition start_run (args : Args) : M (string * string) :=
  let input_dir := abspath H (arg_input_dir args) in
  let in_samples_filtered_dir :=
    Py.path_join input_dir "Samples_Fastq/Filtered_Fastq" in
  let output_dir := abspath H (arg_output args) in
  group_name <- or_raise IndexError (Py.index_last (Py.split "/" output_dir)) ;;
  check_create_dir output_dir ;;;
  let right_now := now H in
  let right_now_full := Py.join "_" (Py.split " " right_now) in
  let log_filename := group_name +:+ "_" +:+ right_now_full +:+ ".log" in
  let log_folder := Py.path_join output_dir "Logs" in
  check_create_dir log_folder ;;;
  let log_full_path := Py.path_join log_folder log_filename in
  emit (OpenLogFile log_full_path) ;;;
  logger_info (LF +:+ BLUE
               +:+ "############### START VARIANT CALLING ###############"
               +:+ END_FORMATTING +:+ LF) ;;;
  emit (LogArgs args) ;;;
  ret (in_samples_filtered_dir, output_dir).

(** Sample resolution and reporting, then the allow-list. *)
Definition resolve_samples (args : Args) (in_samples_filtered_dir : string)
  : M (list string) :=
  emit (ExtractReadList in_samples_filtered_dir) ;;;
  let fastq := extract_read_list H in_samples_filtered_dir in
  let sample_list := sample_list fastq in
  logger_info (LF +:+ CYAN +:+ Py.str_of_nat (length sample_list)
               +:+ " Samples will be analysed: "
               +:+ Py.join ", " sample_list +:+ END_FORMATTING) ;;;
  match arg_sample_list args with
  | None => logger_info (LF +:+ "No samples to filter" +:+ LF)
  | Some path =>
      logger_info "Samples will be filtered" ;;; emit (FileToList path)
  end ;;;
  ret (sample_list_F (arg_sample_list args) fastq).

(** The block under "Variant calling with freebayes-parallel": the
    reference is indexed, then cut in chunks. *)
Definition variant_calling (args : Args) : M unit :=
  logger_info (LF +:+ GREEN +:+ "STARTING VARIANT CALLING" +:+ LF +:+ END_FORMATTING) ;;;
  samtools_faidx H (arg_reference args) ;;;
  create_reference_chunks H (arg_reference args) (arg_chunks args) ;;;
  logger_info (LF +:+ MAGENTA +:+ BOLD
               +:+ "##### END OF ONT VARIANT CALLING PIPELINE #####"
               +:+ LF +:+ END_FORMATTING).

(** The pipeline proper: mapping, then the variant-calling block. *)
Definition run_pipeline (args : Args) (in_samples_filtered_dir out_bam_dir : string)
  : M unit :=
  logger_info (LF +:+ GREEN +:+ "STARTING SAMPLE MAPPING" +:+ LF +:+ END_FORMATTING) ;;;
  minimap2_mapping H in_samples_filtered_dir out_bam_dir (arg_reference args) ;;;
  variant_calling args.

(** The body of [if __name__ == '__main__']. *)
Definition main (args : Args) : M unit :=
  dirs <- start_run args ;;
  let '(in_samples_filtered_dir, output_dir) := dirs in
  sample_list_F <- resolve_samples args in_samples_filtered_dir ;;
  f <- declare_folders output_dir ;;
  run_pipeline args in_samples_filtered_dir (out_bam_dir f).

End Driver.

(** ** A concrete host

    Used to run the model on explicit inputs. *)

(** Modelled from the spec: [extract_sample_list] of [misc_ion] is not
    among the sources. Section 4.1: the key is the read-file name stripped
    of its path and suffix components; section 8: [HQ_S1_run1.fastq] and
    [HQ_S1_run2.fastq] both normalize to [S1]. *)
Definition sample_key (file : string) : string :=
  let name := default file (Py.index_last (Py.split "/" file)) in
  let stem := default name (Py.index (Py.split "." name) 0) in
  default stem (Py.index (Py.split "_" stem) 1).

(** External programs as the mapping stage uses them: the shell line
    leaves its sorted output at the path after [-o], [samtools index]
    leaves the index next to its argument. *)
Definition demo_tools (cmd : command) (isShell : bool) (fs : FS) : FS :=
  match cmd with
  | Line s =>
      match Py.index_last (Py.split " " s) with
      | Some bam => <[bam := File "sorted" 1]> fs
      | None => fs
      end
  | Argv ["samtools"; "index"; bam] => <[bam +:+ ".bai" := File "index" 2]> fs
  | Argv _ => fs
  end.

Definition demo_host (reads : list string) (allow : list string) : host :=
  {| extract_read_list := fun dir => map (Py.path_join dir) reads;
     extract_sample_list := sample_key;
     file_to_list := fun _ => allow;
     subprocess_effect := demo_tools;
     os_walk := fun dir => [(dir, reads)];
     abspath := fun p => p;
     now := "2021-11-22 10:00:00.000000";
     produced := fun _ => File "" 3;
     regions_path := fun reference n => reference +:+ ".regions" |}.

Definition demo_args (allow : option string) (n : Z) : Args :=
  {| arg_input_dir := "/in"; arg_sample := None; arg_sample_list := allow;
     arg_primers := None; arg_threads := 30; arg_bayes := false;
     arg_min_frequency := 0; arg_min_quality := 7; arg_min_mapping := 10;
     arg_reference := "/ref/mtb.fa"; arg_ploidy := 1; arg_chunks := n;
     arg_output := "/out" |}.

(** ** Observations on a run *)

(** The external invocations among the events of a run. *)
Definition is_invocation (e : event) : bool :=
  match e with
  | ExecuteSubprocess _ _ => true
  | _ => false
  end.

Definition invocations (l : list event) : list event := List.filter is_invocation l.

(** The calls to the helpers of [misc_ion], the log lines left out. *)
Definition is_helper_call (e : event) : bool :=
  match e with
  | Log _ | LogArgs _ | OpenLogFile _ => false
  | _ => true
  end.

Definition helper_calls (l : list event) : list event := List.filter is_helper_call l.

(** The calls to [check_create_dir] among the events of a run. *)
Definition is_check_create_dir (e : event) : bool :=
  match e with
  | CheckCreateDir _ => true
  | _ => false
  end.

Definition created_dirs (l : list event) : list event :=
  List.filter is_check_create_dir l.

(** What the mapping stage issues: log lines and external invocations. *)
Definition log_or_invocation (e : event) : Prop :=
  match e with
  | Log _ | ExecuteSubprocess _ _ => True
  | _ => False
  end.

(** The stage a helper call belongs to when every [check_create_dir] is
    counted as layout creation: layout 0, sample resolution 1, mapping 2,
    reference indexing 3, reference partitioning 4. *)
Definition stage_of_call (e : event) : option nat :=
  match e with
  | CheckCreateDir _ => Some 0
  | ExtractReadList _ | FileToList _ => Some 1
  | ExecuteSubprocess _ _ => Some 2
  | SamtoolsFaidx _ => Some 3
  | CreateReferenceChunks _ _ => Some 4
  | _ => None
  end.

Fixpoint nondecreasing (l : list nat) : bool :=
  match l with
  | x :: ((y :: _) as l') => (x <=? y) && nondecreasing l'
  | _ => true
  end.


(** The invocation of the mapping pipeline and the skip line for the file
    [name] of [root]. *)
Definition pipeline_call (out_sorted_bam reference root name key : string) : event :=
  ExecuteSubprocess
    (Line (cmd_minimap2_of reference (Py.path_join root name)
             (filename_bam_out_of out_sorted_bam key))) true.

Definition index_call (out_sorted_bam key : string) : event :=
  ExecuteSubprocess (Argv (cmd_indexing_of (filename_bam_out_of out_sorted_bam key))) false.

Definition skip_line (out_sorted_bam key : string) : event :=
  Log (YELLOW +:+ BOLD +:+ filename_bam_out_of out_sorted_bam key
       +:+ " EXIST" +:+ LF +:+ "Ommiting filtering for sample "
       +:+ key +:+ LF +:+ END_FORMATTING).

Definition mapping_line (key : string) : event :=
  Log (GREEN +:+ "Mapping sample " +:+ key +:+ END_FORMATTING).

(** Two runs that differ in the [--sample_list] argument and in what the
    allow-list file holds. *)
Definition with_sample_list (a : Args) (sl : option string) : Args :=
  {| arg_input_dir := arg_input_dir a; arg_sample := arg_sample a;
     arg_sample_list := sl; arg_primers := arg_primers a;
     arg_threads := arg_threads a; arg_bayes := arg_bayes a;
     arg_min_frequency := arg_min_frequency a;
     arg_min_quality := arg_min_quality a;
     arg_min_mapping := arg_min_mapping a;
     arg_reference := arg_reference a; arg_ploidy := arg_ploidy a;
     arg_chunks := arg_chunks a; arg_output := arg_output a |}.

Definition with_allow_list (H : host) (ftl : string -> list string) : host :=
  {| extract_read_list := extract_read_list H;
     extract_sample_list := extract_sample_list H;
     file_to_list := ftl;
     subprocess_effect := subprocess_effect H;
     os_walk := os_walk H;
     abspath := abspath H;
     now := now H;
     produced := produced H;
     regions_path := regions_path H |}.

(** The file system once [check_create_dir path] has returned. *)
Definition ensure_dir (path : string) (fs : FS) : FS :=
  if exists_path fs path then fs else <[path := Dir]> fs.

(** The directories and the log lines of a run, as the driver names and
    words them. *)
Definition output_dir_of (H : host) (a : Args) : string := abspath H (arg_output a).

Definition in_samples_filtered_dir_of (H : host) (a : Args) : string :=
  Py.path_join (abspath H (arg_input_dir a)) "Samples_Fastq/Filtered_Fastq".

Definition log_folder_of (H : host) (a : Args) : string :=
  Py.path_join (output_dir_of H a) "Logs".

Definition log_full_path_of (H : host) (a : Args) : string :=
  Py.path_join (log_folder_of H a)
    (default EmptyString (Py.index_last (Py.split "/" (output_dir_of H a)))
     +:+ "_" +:+ Py.join "_" (Py.split " " (now H)) +:+ ".log").

Definition start_banner : event :=
  Log (LF +:+ BLUE +:+ "############### START VARIANT CALLING ###############"
       +:+ END_FORMATTING +:+ LF).

Definition report_line (H : host) (a : Args) : event :=
  let l := sample_list H (extract_read_list H (in_samples_filtered_dir_of H a)) in
  Log (LF +:+ CYAN +:+ Py.str_of_nat (length l) +:+ " Samples will be analysed: "
       +:+ Py.join ", " l +:+ END_FORMATTING).

Definition allow_list_events (a : Args) : list event :=
  match arg_sample_list a with
  | None => [Log (LF +:+ "No samples to filter" +:+ LF)]
  | Some path => [Log "Samples will be filtered"; FileToList path]
  end.

Definition mapping_banner : event :=
  Log (LF +:+ GREEN +:+ "STARTING SAMPLE MAPPING" +:+ LF +:+ END_FORMATTING).

Definition variant_banner : event :=
  Log (LF +:+ GREEN +:+ "STARTING VARIANT CALLING" +:+ LF +:+ END_FORMATTING).

Definition end_banner : event :=
  Log (LF +:+ MAGENTA +:+ BOLD +:+ "##### END OF ONT VARIANT CALLING PIPELINE #####"
       +:+ LF +:+ END_FORMATTING).

(** The file system when the mapping stage starts: the output root, its
    [Logs], [Bam] and [Variants] have been asked for. *)
Definition fs_at_mapping (H : host) (a : Args) (fs : FS) : FS :=
  let f := folders_of (output_dir_of H a) in
  ensure_dir (out_variant_dir f)
    (ensure_dir (out_bam_dir f)
       (ensure_dir (log_folder_of H a) (ensure_dir (output_dir_of H a) fs))).

(** The mapping stage as the driver runs it. *)
Definition mapping_of_run (H : host) (a : Args) (fs : FS) : outcome unit :=
  minimap2_mapping H (in_samples_filtered_dir_of H a)
    (out_bam_dir (folders_of (output_dir_of H a))) (arg_reference a)
    (fs_at_mapping H a fs).

(** The file system once [samtools_faidx reference] has returned. *)
Definition ensure_fai (H : host) (reference : string) (fs : FS) : FS :=
  if exists_path fs (fai_path reference) then fs
  else <[fai_path reference := produced H (fai_path reference)]> fs.

(** The declared folders other than [Bam] and [Variants]. *)
Definition only_declared (f : folders) : list string :=
  [out_stats_dir f; out_stats_bamstats_dir f; out_stats_coverage_dir f;
   out_compare_dir f;
   out_annot_dir f; out_annot_snpeff_dir f; out_annot_user_dir f;
   out_annot_user_aa_dir f; out_annot_blast_dir f].

(** Inputs of the concrete runs. *)
Definition demo_dir : string := "/in/Samples_Fastq/Filtered_Fastq".

Definition demo_bam : string := "/out/Bam".

Definition demo_ref : string := "/ref/mtb.fa".

(** A file system where the index of [S1] is there and its sorted
    alignment file is not. *)
Definition fs_index_only : FS := {[ "/out/Bam/S1.sort.bam.bai" := File "index" 2 ]}.

Definition host_one_read : host := demo_host ["HQ_S1.fastq"] [].

Definition host_same_key : host :=
  demo_host ["HQ_S1_run1.fastq"; "HQ_S1_run2.fastq"] [].


Definition host_readme : host :=
  demo_host ["HQ_S1.fastq"; "README.md"; "HQ_S2.fastq"] [].

Definition host_allow_unknown : host :=
  demo_host ["HQ_S1.fastq"; "HQ_S2.fastq"] ["S1"; "S9"].

Definition host_allow_known : host :=
  demo_host ["HQ_S1.fastq"; "HQ_S2.fastq"; "HQ_S3.fastq"; "HQ_S4.fastq"] ["S1"; "S3"].

(** ** The mapping stage with programs that may fail *)

Module Checked.

Section Stage.

Variable H : host.

(** Whether the call of [execute_subprocess] on a command raises, given
    the files the program starts on. *)
Variable fatal : command -> bool -> FS -> bool.

(** Modelled from the spec: [execute_subprocess] of [misc_ion] is not
    among the sources. Sections 4.3 and 7: a non-zero exit of the external
    program is fatal, it propagates to the caller and nothing after the
    call runs. The program has run, so the files are as it left them. *)
Definition execute_subprocess (cmd : command) (isShell : bool) : M unit :=
  emit (ExecuteSubprocess cmd isShell) ;;;
  failed <- read_fs (fatal cmd isShell) ;;
  update_fs (subprocess_effect H cmd isShell) ;;;
  if failed : bool then raise SubprocessError else ret tt.

(** The body of the inner loop of [minimap2_mapping], for the file [name]
    of the directory [root]. *)
Definition map_one (out_sorted_bam reference root name : string) : M unit :=
  let HQ_filename := Py.path_join root name in
  filename_out <- or_raise IndexError (filename_out_of name) ;;
  let filename_bam_out := filename_bam_out_of out_sorted_bam filename_out in
  let filename_bai_out := filename_bai_out_of out_sorted_bam filename_out in
  indexed <- read_fs (fun fs => isfile fs filename_bai_out) ;;
  if indexed : bool then
    logger_info (YELLOW +:+ BOLD +:+ filename_bam_out
                 +:+ " EXIST" +:+ LF +:+ "Ommiting filtering for sample "
                 +:+ filename_out +:+ LF +:+ END_FORMATTING)
  else
    logger_info (GREEN +:+ "Mapping sample " +:+ filename_out +:+ END_FORMATTING) ;;;
    execute_subprocess
      (Line (cmd_minimap2_of reference HQ_filename filename_bam_out)) true ;;;
    execute_subprocess (Argv (cmd_indexing_of filename_bam_out)) false.

(** The two loops of [minimap2_mapping] over a listing [walk]. *)
Definition map_walk (walk : list (string * list string))
    (out_sorted_bam reference : string) : M unit :=
  for_each walk (fun '(root, files) =>
    for_each files (fun name => map_one out_sorted_bam reference root name)).

Definition minimap2_mapping (out_samples_filtered_dir out_sorted_bam reference : string)
  : M unit :=
  map_walk (os_walk H out_samples_filtered_dir) out_sorted_bam reference.

End Stage.

End Checked.

(** Programs that all end well. *)
Definition all_succeed (cmd : command) (isShell : bool) (fs : FS) : bool := false.

(** The files of a listing, each with its directory, in the order the two
    loops take them. *)
Definition flat_listing (walk : list (string * list string)) : list (string * string) :=
  flat_map (fun rf : string * list string => map (pair rf.1) rf.2) walk.

(** Programs of which every shell line fails. *)
Definition pipeline_fails (cmd : command) (isShell : bool) (fs : FS) : bool :=
  match cmd with
  | Line _ => true
  | Argv _ => false
  end.

Definition host_two_reads : host := demo_host ["HQ_S1.fastq"; "HQ_S2.fastq"] [].

(** ** Further observations *)

(** [s] with every [a] turned into [b]. *)
Fixpoint replace_char (a b : ascii) (s : string) : string :=
  match s with
  | EmptyString => EmptyString
  | String c s' => String (if Ascii.eqb c a then b else c) (replace_char a b s')
  end.

(** A file whose key can be read and whose index is a file of [fs]. *)
Definition indexed (out_sorted_bam : string) (fs : FS) (name : string) : bool :=
  match filename_out_of name with
  | Some key => isfile fs (filename_bai_out_of out_sorted_bam key)
  | None => false
  end.

Definition all_indexed (out_sorted_bam : string) (fs : FS)
    (walk : list (string * list string)) : bool :=
  forallb (fun rf : string * list string => forallb (indexed out_sorted_bam fs) rf.2) walk.

(** One skip line per file of a listing, in the order of the listing. *)
Definition skip_lines (out_sorted_bam : string) (walk : list (string * list string))
  : list event :=
  flat_map (fun rf : string * list string =>
              omap (fun name => skip_line out_sorted_bam <$> filename_out_of name) rf.2)
           walk.

(** What the external programs are expected to do: none of them removes
    a file, and [samtools index] leaves the index of its argument next to
    it. *)
Definition tools_keep_files (H : host) : Prop :=
  forall cmd isShell (fs : FS) p,
    isfile fs p = true -> isfile (subprocess_effect H cmd isShell fs) p = true.

Definition index_tool_leaves_index (H : host) : Prop :=
  forall sorted (fs : FS),
    isfile (subprocess_effect H (Argv ["samtools"; "index"; sorted]) false fs)
           (sorted +:+ ".bai") = true.


(** The calls of the variant-calling block. *)
Definition is_variant_call (e : event) : bool :=
  match e with
  | SamtoolsFaidx _ | CreateReferenceChunks _ _ => true
  | _ => false
  end.

(** All the folders the driver declares. *)
Definition declared (f : folders) : list string :=
  out_bam_dir f :: out_variant_dir f :: only_declared f.

(** External programs that write an index: the last argument of an
    argument vector gets its [.bai]; a shell line writes nothing. *)
Definition index_writer (cmd : command) (isShell : bool) (fs : FS) : FS :=
  match cmd with
  | Line _ => fs
  | Argv l =>
      match last l with
      | Some sorted => <[sorted +:+ ".bai" := File "index" 2]> fs
      | None => fs
      end
  end.

Definition host_index_writer (reads : list string) : host :=
  {| extract_read_list := fun dir => map (Py.path_join dir) reads;
     extract_sample_list := sample_key;
     file_to_list := fun _ => [];
     subprocess_effect := index_writer;
     os_walk := fun dir => [(dir, reads)];
     abspath := fun p => p;
     now := "2021-11-22 10:00:00.000000";
     produced := fun _ => File "" 3;
     regions_path := fun reference n => reference +:+ ".regions" |}.

(** * Properties *)

(** ** Python strings *)

Lemma split_not_nil sep s : Py.split sep s <> [].
Proof.
  destruct s as [|c s]; simpl; [discriminate|].
  destruct (Ascii.eqb c sep); [discriminate|].
  destruct (Py.split sep s); discriminate.
Qed.

Lemma split_without_sep sep s :
  Py.contains sep s = false -> Py.split sep s = [s].
Proof.
  induction s as [|c s IH]; simpl; [reflexivity|].
  intros Hc. apply orb_false_iff in Hc as [Hc Hs].
  rewrite Hc, (IH Hs). reflexivity.
Qed.


Lemma index_last_split sep s : is_Some (Py.index_last (Py.split sep s)).
Proof.
  unfold Py.index_last. pose proof (split_not_nil sep s) as Hn.
  destruct (Py.split sep s) as [|w ws] using rev_ind; [contradiction|].
  rewrite last_snoc. eauto.
Qed.

Lemma append_cancel_l a x y : a +:+ x = a +:+ y -> x = y.
Proof. apply (inj (String.append a)). Qed.

Lemma append_assoc a b c : (a +:+ b) +:+ c = a +:+ (b +:+ c).
Proof.
  induction a as [|d a IH]; [reflexivity|].
  change (String d ((a +:+ b) +:+ c) = String d (a +:+ (b +:+ c))).
  now rewrite IH.
Qed.


(** ** The execution monad *)


Lemma bind_run {A B} (m : M A) (k : A -> M B) fs a fs1 ev :
  m fs = Outcome (Ok a) fs1 ev ->
  bind m k fs = Outcome (res (k a fs1)) (fs_after (k a fs1)) (ev ++ events (k a fs1)).
Proof. intros E. unfold bind. rewrite E. reflexivity. Qed.

Lemma for_each_app {A} (l1 l2 : list A) body fs :
  res (for_each l1 body fs) = Ok tt ->
  for_each (l1 ++ l2) body fs =
    Outcome (res (for_each l2 body (fs_after (for_each l1 body fs))))
            (fs_after (for_each l2 body (fs_after (for_each l1 body fs))))
            (events (for_each l1 body fs)
             ++ events (for_each l2 body (fs_after (for_each l1 body fs)))).
Proof.
  revert fs. induction l1 as [|x l1 IH]; intros fs; simpl.
  - intros _. destruct (for_each l2 body fs); reflexivity.
  - unfold bind at 1 3 4 5 6. destruct (res (body x fs)) as [[]|e] eqn:E; simpl.
    + intros Hok. unfold bind. rewrite E. simpl. rewrite (IH _ Hok). simpl.
      rewrite app_assoc. reflexivity.
    + discriminate.
Qed.

Lemma for_each_cons {A} (x : A) l body fs :
  for_each (x :: l) body fs = bind (body x) (fun _ => for_each l body) fs.
Proof. reflexivity. Qed.




(** ** The mapping stage, one file at a time *)

Section MapOne.

Variable H : host.
Variables out_sorted_bam reference root name : string.

Lemma map_one_raise fs :
  filename_out_of name = None ->
  map_one H out_sorted_bam reference root name fs = Outcome (Raise IndexError) fs [].
Proof. intros Hk. unfold map_one, bind. rewrite Hk. reflexivity. Qed.

Lemma map_one_skip fs key :
  filename_out_of name = Some key ->
  isfile fs (filename_bai_out_of out_sorted_bam key) = true ->
  map_one H out_sorted_bam reference root name fs =
    Outcome (Ok tt) fs [skip_line out_sorted_bam key].
Proof.
  intros Hk Hi. unfold map_one, bind. rewrite Hk. simpl. rewrite Hi. reflexivity.
Qed.

Lemma map_one_run fs key :
  filename_out_of name = Some key ->
  isfile fs (filename_bai_out_of out_sorted_bam key) = false ->
  map_one H out_sorted_bam reference root name fs =
    Outcome (Ok tt)
      (subprocess_effect H (Argv (cmd_indexing_of (filename_bam_out_of out_sorted_bam key))) false
         (subprocess_effect H
            (Line (cmd_minimap2_of reference (Py.path_join root name)
                     (filename_bam_out_of out_sorted_bam key))) true fs))
      [mapping_line key;
       pipeline_call out_sorted_bam reference root name key;
       index_call out_sorted_bam key].
Proof.
  intros Hk Hi. unfold map_one, bind. rewrite Hk. simpl. rewrite Hi. reflexivity.
Qed.


End MapOne.

(** The shell line is the aligner piped into the flag filter piped into
    the sort. *)
Lemma cmd_minimap2_pipeline reference HQ_filename filename_bam_out :
  cmd_minimap2_of reference HQ_filename filename_bam_out =
  Py.join " | "
    ["minimap2 -ax map-ont " +:+ reference +:+ " " +:+ HQ_filename;
     "samtools view -bS -F 4 -";
     "samtools sort -o " +:+ filename_bam_out].
Proof.
  unfold cmd_minimap2_of, Py.join.
  rewrite !append_assoc. reflexivity.
Qed.

(** ** C10: the key derivation is partial *)


(** ** The blocks of the driver *)

Section Blocks.

Variable H : host.
Variable a : Args.

Lemma check_create_dir_run path fs :
  check_create_dir path fs = Outcome (Ok tt) (ensure_dir path fs) [CheckCreateDir path].
Proof. reflexivity. Qed.

Lemma start_run_run fs :
  start_run H a fs =
    Outcome (Ok (in_samples_filtered_dir_of H a, output_dir_of H a))
      (ensure_dir (log_folder_of H a) (ensure_dir (output_dir_of H a) fs))
      [CheckCreateDir (output_dir_of H a); CheckCreateDir (log_folder_of H a);
       OpenLogFile (log_full_path_of H a); start_banner; LogArgs a].
Proof.
  unfold start_run, log_full_path_of, log_folder_of, output_dir_of.
  destruct (index_last_split "/" (abspath H (arg_output a))) as [g Hg].
  unfold bind. rewrite Hg. reflexivity.
Qed.

Lemma resolve_samples_run fs :
  resolve_samples H a (in_samples_filtered_dir_of H a) fs =
    Outcome
      (Ok (sample_list_F H (arg_sample_list a)
             (extract_read_list H (in_samples_filtered_dir_of H a))))
      fs
      (ExtractReadList (in_samples_filtered_dir_of H a)
         :: report_line H a :: allow_list_events a).
Proof.
  unfold resolve_samples, allow_list_events.
  destruct (arg_sample_list a); reflexivity.
Qed.

Lemma declare_folders_run output_dir fs :
  declare_folders output_dir fs =
    Outcome (Ok (folders_of output_dir))
      (ensure_dir (out_variant_dir (folders_of output_dir))
         (ensure_dir (out_bam_dir (folders_of output_dir)) fs))
      [CheckCreateDir (out_bam_dir (folders_of output_dir));
       CheckCreateDir (out_variant_dir (folders_of output_dir))].
Proof. reflexivity. Qed.

Lemma samtools_faidx_run reference fs :
  samtools_faidx H reference fs =
    Outcome (Ok tt) (ensure_fai H reference fs) [SamtoolsFaidx reference].
Proof. reflexivity. Qed.

Lemma variant_calling_run fs :
  variant_calling H a fs =
    if (arg_chunks a <=? 0)%Z then
      Outcome (Raise InvalidChunks) (ensure_fai H (arg_reference a) fs)
        [variant_banner; SamtoolsFaidx (arg_reference a);
         CreateReferenceChunks (arg_reference a) (arg_chunks a)]
    else
      Outcome (Ok tt)
        (<[regions_path H (arg_reference a) (arg_chunks a) :=
             produced H (regions_path H (arg_reference a) (arg_chunks a))]>
           (ensure_fai H (arg_reference a) fs))
        [variant_banner; SamtoolsFaidx (arg_reference a);
         CreateReferenceChunks (arg_reference a) (arg_chunks a); end_banner].
Proof.
  unfold variant_calling, create_reference_chunks, bind.
  simpl. destruct (arg_chunks a <=? 0)%Z; reflexivity.
Qed.

(** A whole run: the outcome of [main] in terms of the outcome of its
    mapping stage. *)
Lemma main_run fs :
  main H a fs =
    let om := mapping_of_run H a fs in
    let head :=
      [CheckCreateDir (output_dir_of H a); CheckCreateDir (log_folder_of H a);
       OpenLogFile (log_full_path_of H a); start_banner; LogArgs a;
       ExtractReadList (in_samples_filtered_dir_of H a); report_line H a]
      ++ allow_list_events a
      ++ [CheckCreateDir (out_bam_dir (folders_of (output_dir_of H a)));
          CheckCreateDir (out_variant_dir (folders_of (output_dir_of H a)));
          mapping_banner]
      ++ events om in
    match res om with
    | Ok _ =>
        let ov := variant_calling H a (fs_after om) in
        Outcome (res ov) (fs_after ov) (head ++ events ov)
    | Raise e => Outcome (Raise e) (fs_after om) head
    end.
Proof.
  unfold main.
  rewrite (bind_run _ _ _ _ _ _ (start_run_run fs)). cbv beta iota.
  rewrite (bind_run _ _ _ _ _ _ (resolve_samples_run _)). cbn [res fs_after events].
  rewrite (bind_run _ _ _ _ _ _ (declare_folders_run _ _)). cbn [res fs_after events].
  unfold run_pipeline.
  rewrite (bind_run _ _ _ _ _ _ (eq_refl : logger_info _ _ = Outcome (Ok tt) _ [mapping_banner])).
  cbn [res fs_after events].
  unfold mapping_of_run, fs_at_mapping, bind. cbv zeta.
  set (om := minimap2_mapping H _ _ _ _).
  destruct om as [[[]|e] fsm evm];
    cbn [res fs_after events]; f_equal;
    repeat (rewrite <- ?app_assoc; cbn [app]); reflexivity.
Qed.

End Blocks.

(** ** What the mapping stage issues *)

Lemma events_bind {A B} (m : M A) (k : A -> M B) fs :
  events (bind m k fs) =
    events (m fs) ++
    match res (m fs) with
    | Ok x => events (k x (fs_after (m fs)))
    | Raise _ => []
    end.
Proof. unfold bind. destruct (res (m fs)); simpl; [reflexivity|]. now rewrite app_nil_r. Qed.

Lemma for_each_Forall {A} (P : event -> Prop) (l : list A) body fs :
  (forall x fs', Forall P (events (body x fs'))) ->
  Forall P (events (for_each l body fs)).
Proof.
  intros Hb. revert fs. induction l as [|x l IH]; intros fs; simpl; [constructor|].
  rewrite events_bind. apply Forall_app. split; [apply Hb|].
  destruct (res (body x fs)); [apply IH|constructor].
Qed.

Lemma map_one_events H out_sorted_bam reference root name fs :
  Forall log_or_invocation (events (map_one H out_sorted_bam reference root name fs)).
Proof.
  destruct (filename_out_of name) as [key|] eqn:Hk.
  - destruct (isfile fs (filename_bai_out_of out_sorted_bam key)) eqn:Hi.
    + rewrite (map_one_skip _ _ _ _ _ _ _ Hk Hi). repeat constructor.
    + rewrite (map_one_run _ _ _ _ _ _ _ Hk Hi). repeat constructor.
  - rewrite (map_one_raise _ _ _ _ _ _ Hk). constructor.
Qed.

Lemma map_walk_events H walk out_sorted_bam reference fs :
  Forall log_or_invocation (events (map_walk H walk out_sorted_bam reference fs)).
Proof.
  apply for_each_Forall. intros [root files] fs'.
  apply for_each_Forall. intros name fs''. apply map_one_events.
Qed.

Lemma filter_agree (p q : event -> bool) l :
  Forall (fun e => p e = q e) l -> List.filter p l = List.filter q l.
Proof.
  induction 1 as [|e l He _ IH]; simpl; [reflexivity|]. now rewrite He, IH.
Qed.

Lemma filter_none (p : event -> bool) l :
  Forall (fun e => p e = false) l -> List.filter p l = [].
Proof. induction 1 as [|e l He _ IH]; simpl; [reflexivity|]. now rewrite He. Qed.

Lemma mapping_helper_calls H walk out_sorted_bam reference fs :
  helper_calls (events (map_walk H walk out_sorted_bam reference fs)) =
  invocations (events (map_walk H walk out_sorted_bam reference fs)).
Proof.
  apply filter_agree. eapply Forall_impl; [apply map_walk_events|].
  intros [] He; simpl in *; tauto.
Qed.

Lemma mapping_created_dirs H walk out_sorted_bam reference fs :
  created_dirs (events (map_walk H walk out_sorted_bam reference fs)) = [].
Proof.
  apply filter_none. eapply Forall_impl; [apply map_walk_events|].
  intros [] He; simpl in *; tauto.
Qed.

Lemma allow_list_invocations a : invocations (allow_list_events a) = [].
Proof. unfold allow_list_events. destruct (arg_sample_list a); reflexivity. Qed.

Lemma allow_list_created_dirs a : created_dirs (allow_list_events a) = [].
Proof. unfold allow_list_events. destruct (arg_sample_list a); reflexivity. Qed.

Lemma variant_calling_invocations H a fs :
  invocations (events (variant_calling H a fs)) = [].
Proof. rewrite variant_calling_run. destruct (arg_chunks a <=? 0)%Z; reflexivity. Qed.

Lemma variant_calling_created_dirs H a fs :
  created_dirs (events (variant_calling H a fs)) = [].
Proof. rewrite variant_calling_run. destruct (arg_chunks a <=? 0)%Z; reflexivity. Qed.

(** The external invocations of a run are those of its mapping stage. *)
Lemma main_invocations H a fs :
  invocations (events (main H a fs)) = invocations (events (mapping_of_run H a fs)).
Proof.
  rewrite main_run. cbv zeta. unfold invocations.
  destruct (res (mapping_of_run H a fs)); cbn [events];
    rewrite ?List.filter_app; fold (invocations (allow_list_events a));
    rewrite allow_list_invocations;
    try (fold (invocations (events (variant_calling H a (fs_after (mapping_of_run H a fs)))));
         rewrite variant_calling_invocations);
    cbn; rewrite ?app_nil_r; reflexivity.
Qed.

Lemma main_created_dirs H a fs :
  created_dirs (events (main H a fs)) =
    [CheckCreateDir (output_dir_of H a); CheckCreateDir (log_folder_of H a);
     CheckCreateDir (out_bam_dir (folders_of (output_dir_of H a)));
     CheckCreateDir (out_variant_dir (folders_of (output_dir_of H a)))].
Proof.
  rewrite main_run. cbv zeta. unfold created_dirs.
  pose proof (mapping_created_dirs H (os_walk H (in_samples_filtered_dir_of H a))
                (out_bam_dir (folders_of (output_dir_of H a))) (arg_reference a)
                (fs_at_mapping H a fs)) as Hm.
  unfold created_dirs in Hm.
  change (events (map_walk H _ _ _ _)) with (events (mapping_of_run H a fs)) in Hm.
  destruct (res (mapping_of_run H a fs)); cbn [events];
    rewrite ?List.filter_app, Hm; fold (created_dirs (allow_list_events a));
    rewrite allow_list_created_dirs;
    try (fold (created_dirs (events (variant_calling H a (fs_after (mapping_of_run H a fs)))));
         rewrite variant_calling_created_dirs);
    reflexivity.
Qed.

(** ** C7: the order of the stages *)

(** C7, as the code has it. Every run issues its events in this order: the
    output root and its [Logs] are asked for and the log opened; the
    samples are resolved and reported and the allow-list is read; [Bam]
    and [Variants] are asked for; the mapping stage runs over all files;
    then, when the mapping stage returned, the reference is indexed and
    after that cut in chunks. So the layout is created in two steps, the
    second one after the sample resolution, and each later step starts
    when the one before it is over. The mapping stage itself calls no
    helper but [execute_subprocess]. *)
Theorem driver_runs_stages_in_order (H : host) (a : Args) (fs : FS) :
  let f := folders_of (output_dir_of H a) in
  let om := mapping_of_run H a fs in
  events (main H a fs) =
    [CheckCreateDir (output_dir_of H a); CheckCreateDir (log_folder_of H a);
     OpenLogFile (log_full_path_of H a); start_banner; LogArgs a]
    ++ [ExtractReadList (in_samples_filtered_dir_of H a); report_line H a]
    ++ allow_list_events a
    ++ [CheckCreateDir (out_bam_dir f); CheckCreateDir (out_variant_dir f)]
    ++ [mapping_banner] ++ events om
    ++ match res om with
       | Ok _ =>
           [variant_banner; SamtoolsFaidx (arg_reference a);
            CreateReferenceChunks (arg_reference a) (arg_chunks a)]
           ++ (if (arg_chunks a <=? 0)%Z then [] else [end_banner])
       | Raise _ => []
       end
  /\ helper_calls (events om) = invocations (events om).
Proof.
  intros f om. subst f om. split.
  - rewrite main_run. cbv zeta.
    destruct (res (mapping_of_run H a fs)); cbn [events].
    + rewrite variant_calling_run.
      destruct (arg_chunks a <=? 0)%Z; cbn [events app];
        repeat (rewrite <- ?app_assoc; cbn [app]); reflexivity.
    + repeat (rewrite <- ?app_assoc; cbn [app]). now rewrite app_nil_r.
  - apply mapping_helper_calls.
Qed.

(** ** C9: the allow-list and the mapping stage *)

(** C9. Two runs that differ only in the [--sample_list] argument (given
    or not, naming whatever file) and in what the allow-list file holds
    have the same mapping stage: it starts on the same files, logs and
    invokes the same and ends alike. The external invocations of each run
    are those of that mapping stage; the two runs end alike and leave the
    same files. *)
Theorem allow_list_does_not_reach_mapping
    (H : host) (a : Args) (fs : FS) (sl1 sl2 : option string)
    (ftl1 ftl2 : string -> list string) :
  let o1 := main (with_allow_list H ftl1) (with_sample_list a sl1) fs in
  let o2 := main (with_allow_list H ftl2) (with_sample_list a sl2) fs in
  mapping_of_run (with_allow_list H ftl1) (with_sample_list a sl1) fs =
    mapping_of_run (with_allow_list H ftl2) (with_sample_list a sl2) fs /\
  invocations (events o1) = invocations (events o2) /\
  invocations (events o1) = invocations (events (mapping_of_run H a fs)) /\
  res o1 = res o2 /\
  fs_after o1 = fs_after o2.
Proof.
  intros o1 o2. subst o1 o2.
  assert (Hm : forall sl ftl,
             mapping_of_run (with_allow_list H ftl) (with_sample_list a sl) fs
             = mapping_of_run H a fs) by reflexivity.
  assert (Hv : forall sl ftl fs',
             variant_calling (with_allow_list H ftl) (with_sample_list a sl) fs'
             = variant_calling H a fs') by reflexivity.
  repeat split.
  - now rewrite !main_invocations, !Hm.
  - now rewrite main_invocations, Hm.
  - rewrite !main_run. cbv zeta. rewrite !Hm.
    destruct (res (mapping_of_run H a fs)); cbn [res]; [now rewrite !Hv|reflexivity].
  - rewrite !main_run. cbv zeta. rewrite !Hm.
    destruct (res (mapping_of_run H a fs)); cbn [fs_after]; [now rewrite !Hv|reflexivity].
Qed.

(** ** C4: the directories of the output layout *)

(** For a fixed first part, joining a relative name puts the same
    separator in between. *)
Lemma path_join_relative a :
  exists s, forall b, Py.startswith "/" b = false -> Py.path_join a b = a +:+ s +:+ b.
Proof.
  unfold Py.path_join.
  destruct (bool_decide (a = EmptyString) || Py.endswith "/" a) eqn:E.
  - exists EmptyString. intros b ->. reflexivity.
  - exists "/". intros b ->. reflexivity.
Qed.

Lemma ensure_dir_lookup_ne p q (fs : FS) : p <> q -> ensure_dir p fs !! q = fs !! q.
Proof.
  intros Hne. unfold ensure_dir. destruct (exists_path fs p); [reflexivity|].
  now rewrite lookup_insert_ne.
Qed.

Lemma ensure_dir_exists p (fs : FS) : exists_path (ensure_dir p fs) p = true.
Proof.
  unfold ensure_dir. destruct (exists_path fs p) eqn:E; [exact E|].
  unfold exists_path. now rewrite lookup_insert_eq.
Qed.

Lemma ensure_dir_keeps p q (fs : FS) :
  exists_path fs q = true -> exists_path (ensure_dir p fs) q = true.
Proof.
  intros Hq. destruct (decide (p = q)) as [->|Hne]; [apply ensure_dir_exists|].
  unfold exists_path in *. now rewrite ensure_dir_lookup_ne.
Qed.

Lemma ensure_dir_idem p (fs : FS) : ensure_dir p (ensure_dir p fs) = ensure_dir p fs.
Proof.
  unfold ensure_dir at 1. now rewrite ensure_dir_exists.
Qed.

Lemma ensure_dir_present p (fs : FS) : exists_path fs p = true -> ensure_dir p fs = fs.
Proof. intros E. unfold ensure_dir. now rewrite E. Qed.

Lemma only_declared_apart output_dir :
  Forall (fun p => out_bam_dir (folders_of output_dir) <> p /\
                   out_variant_dir (folders_of output_dir) <> p)
         (only_declared (folders_of output_dir)).
Proof.
  destruct (path_join_relative output_dir) as [s Hs].
  destruct (path_join_relative (Py.path_join output_dir "Stats")) as [s1 Hs1].
  destruct (path_join_relative (Py.path_join output_dir "Annotation")) as [s2 Hs2].
  unfold only_declared, folders_of; cbn [out_bam_dir out_variant_dir out_stats_dir
    out_stats_bamstats_dir out_stats_coverage_dir out_compare_dir out_annot_dir
    out_annot_snpeff_dir out_annot_user_dir out_annot_user_aa_dir out_annot_blast_dir].
  rewrite !Hs1, !Hs2, !Hs by reflexivity.
  rewrite !append_assoc.
  repeat constructor; intros E;
    apply append_cancel_l in E; apply append_cancel_l in E; discriminate E.
Qed.

(** C4, as the code has it. The driver asks [check_create_dir]
    (create-if-absent, no error if present) for exactly four directories,
    in this order: the output root, its [Logs], the alignment output [Bam]
    and the variant output [Variants]. Once the declaration block is over,
    [Bam] and [Variants] exist, and running the block again changes
    nothing. The statistics, comparison and annotation folders, with
    their subfolders, are only given a name: each is on disk afterwards
    exactly if it was before. *)
Theorem layout_creates_bam_and_variants_only (H : host) (a : Args) (fs fs0 : FS) :
  let f := folders_of (output_dir_of H a) in
  let o := declare_folders (output_dir_of H a) fs in
  created_dirs (events (main H a fs0)) =
    [CheckCreateDir (output_dir_of H a); CheckCreateDir (log_folder_of H a);
     CheckCreateDir (out_bam_dir f); CheckCreateDir (out_variant_dir f)] /\
  res o = Ok f /\
  exists_path (fs_after o) (out_bam_dir f) = true /\
  exists_path (fs_after o) (out_variant_dir f) = true /\
  Forall (fun p => fs_after o !! p = fs !! p) (only_declared f) /\
  fs_after (declare_folders (output_dir_of H a) (fs_after o)) = fs_after o /\
  res (declare_folders (output_dir_of H a) (fs_after o)) = Ok f.
Proof.
  intros f o. subst f o. rewrite !declare_folders_run. cbn [res fs_after].
  split; [apply main_created_dirs|]. split; [reflexivity|].
  split; [apply ensure_dir_keeps, ensure_dir_exists|].
  split; [apply ensure_dir_exists|].
  split.
  - eapply Forall_impl; [apply only_declared_apart|].
    intros p [Hb Hv]. cbv beta in *.
    now rewrite !ensure_dir_lookup_ne.
  - split; [|reflexivity].
    rewrite (ensure_dir_present (out_bam_dir _)
               (ensure_dir (out_variant_dir _) _))
      by apply ensure_dir_keeps, ensure_dir_exists.
    apply ensure_dir_idem.
Qed.

(** ** C5: the reported sample list *)

(** C5, as the code has it. The list the driver reports holds one entry
    per read file, in the order of the read files: a key is in it as many
    times as there are read files that normalize to it, so twice for two
    files with the same key. Nothing removes duplicates. *)
Theorem sample_list_has_one_entry_per_read_file (H : host) (fastq : list string) :
  length (sample_list H fastq) = length fastq /\
  (forall i, sample_list H fastq !! i = extract_sample_list H <$> fastq !! i) /\
  forall key,
    length (List.filter (String.eqb key) (sample_list H fastq)) =
    length (List.filter (fun file => String.eqb key (extract_sample_list H file)) fastq).
Proof.
  unfold sample_list. split; [apply length_map|]. split; [intros i; apply list_lookup_fmap|].
  intros key. induction fastq as [|file fastq IH]; simpl; [reflexivity|].
  destruct (String.eqb key (extract_sample_list H file)); simpl; now rewrite IH.
Qed.

(** ** C3: the files the mapping stage takes *)




(** ** Concrete runs *)




(** The sample resolution comes before [Bam] and [Variants] are asked
    for: with every [check_create_dir] counted as layout creation, the
    stages of a run are not in the claimed order. *)
Lemma layout_is_not_over_before_resolution :
  nondecreasing (omap stage_of_call (events (main host_one_read (demo_args None 4) ∅)))
  = false.
Proof. reflexivity. Qed.

(** A run that ends well leaves none of the statistics, comparison and
    annotation folders on disk. *)
Lemma run_leaves_declared_folders_absent :
  res (main host_one_read (demo_args None 4) ∅) = Ok tt /\
  Forall (fun p => exists_path (fs_after (main host_one_read (demo_args None 4) ∅)) p
                   = false)
         (only_declared (folders_of (output_dir_of host_one_read (demo_args None 4)))).
Proof. split; [reflexivity|]. repeat constructor. Qed.

(** Two read files with one key: the key is reported twice. *)
Lemma sample_list_repeats_shared_key :
  sample_list host_same_key (extract_read_list host_same_key demo_dir) = ["S1"; "S1"] /\
  ~ NoDup (sample_list host_same_key (extract_read_list host_same_key demo_dir)).
Proof.
  split; [reflexivity|].
  change (sample_list host_same_key (extract_read_list host_same_key demo_dir))
    with ["S1"; "S1"].
  intros Hnd. apply NoDup_cons in Hnd as [Hn _]. apply Hn, list_elem_of_here.
Qed.

(** With a chunk count of zero the run fails only after the mapping
    stage has invoked its programs and the reference index, absent
    before, has been created. *)
Lemma zero_chunks_fail_after_indexing :
  res (main host_one_read (demo_args None 0) ∅) = Raise InvalidChunks /\
  exists_path ∅ (fai_path (arg_reference (demo_args None 0))) = false /\
  exists_path (fs_after (main host_one_read (demo_args None 0) ∅))
    (fai_path (arg_reference (demo_args None 0))) = true /\
  invocations (events (main host_one_read (demo_args None 0) ∅)) =
    [pipeline_call demo_bam demo_ref demo_dir "HQ_S1.fastq" "S1";
     index_call demo_bam "S1"].
Proof. repeat split; reflexivity. Qed.

(** * Further properties of the module *)

(** ** Splitting and joining *)

Lemma append_cons c a x : String c a +:+ x = String c (a +:+ x).
Proof. reflexivity. Qed.

Lemma split_app_sep sep a b :
  Py.contains sep a = false ->
  Py.split sep (a +:+ String sep b) = a :: Py.split sep b.
Proof.
  induction a as [|c a IH]; intros Hc.
  - change (EmptyString +:+ String sep b) with (String sep b). simpl.
    now rewrite Ascii.eqb_refl.
  - simpl in Hc. apply orb_false_iff in Hc as [Hc Ha].
    rewrite append_cons. simpl. rewrite Hc, (IH Ha). reflexivity.
Qed.

Lemma split_app_nosep sep a b :
  Py.contains sep a = false ->
  Py.split sep (a +:+ b) =
    match Py.split sep b with
    | w :: ws => (a +:+ w) :: ws
    | [] => [a]
    end.
Proof.
  induction a as [|c a IH]; intros Hc.
  - change (EmptyString +:+ b) with b.
    pose proof (split_not_nil sep b). now destruct (Py.split sep b).
  - simpl in Hc. apply orb_false_iff in Hc as [Hc Ha].
    rewrite append_cons. simpl. rewrite Hc, (IH Ha).
    pose proof (split_not_nil sep b). now destruct (Py.split sep b).
Qed.

Lemma split_tokens_no_sep sep s :
  Forall (fun w => Py.contains sep w = false) (Py.split sep s).
Proof.
  induction s as [|c s IH]; simpl; [repeat constructor|].
  destruct (Ascii.eqb c sep) eqn:Hc.
  - constructor; [reflexivity|exact IH].
  - pose proof (split_not_nil sep s).
    destruct (Py.split sep s) as [|w ws]; [contradiction|].
    inversion IH as [|? ? Hw Hws]; subst.
    constructor; [|exact Hws]. simpl. now rewrite Hc, Hw.
Qed.

Lemma split_tokens_sub sep c s :
  Forall (fun w => Py.contains c w = true -> Py.contains c s = true) (Py.split sep s).
Proof.
  induction s as [|d s IH]; simpl; [repeat constructor; auto|].
  destruct (Ascii.eqb d sep) eqn:Hd.
  - constructor; [discriminate|].
    eapply Forall_impl; [exact IH|]. cbv beta. intros w Hw Hc.
    rewrite (Hw Hc). apply orb_true_r.
  - pose proof (split_not_nil sep s).
    destruct (Py.split sep s) as [|w ws]; [contradiction|].
    inversion IH as [|? ? Hw Hws]; subst. constructor.
    + simpl. intros Hc. apply orb_true_iff in Hc as [Hc|Hc].
      * now rewrite Hc.
      * rewrite (Hw Hc). apply orb_true_r.
    + eapply Forall_impl; [exact Hws|]. cbv beta. intros w' Hw' Hc.
      rewrite (Hw' Hc). apply orb_true_r.
Qed.

Lemma join_replace a b s :
  Py.join (String b EmptyString) (Py.split a s) = replace_char a b s.
Proof.
  induction s as [|c s IH]; [reflexivity|]. simpl.
  pose proof (split_not_nil a s) as Hn.
  destruct (Ascii.eqb c a).
  - destruct (Py.split a s) as [|w ws]; [contradiction|].
    change (Py.join (String b EmptyString) (EmptyString :: w :: ws))
      with (String b (Py.join (String b EmptyString) (w :: ws))).
    now rewrite IH.
  - destruct (Py.split a s) as [|w ws]; [contradiction|].
    rewrite <- IH. destruct ws; reflexivity.
Qed.

Lemma replace_char_gone a b s :
  a <> b -> Py.contains a (replace_char a b s) = false.
Proof.
  intros Hab. induction s as [|c s IH]; [reflexivity|]. simpl. rewrite IH.
  destruct (Ascii.eqb c a) eqn:Hc; [|now rewrite Hc].
  destruct (Ascii.eqb b a) eqn:Hb; [|reflexivity].
  apply Ascii.eqb_eq in Hb. congruence.
Qed.

Lemma replace_char_length a b s :
  String.length (replace_char a b s) = String.length s.
Proof. induction s as [|c s IH]; simpl; [reflexivity|]. now rewrite IH. Qed.

(** The time stamp that goes into the name of the log file is the time of
    the run with every space turned into an underscore: it holds no space
    and is as long as the time read. *)
Theorem right_now_full_has_no_space (right_now : string) :
  let right_now_full := Py.join "_" (Py.split " " right_now) in
  right_now_full = replace_char " " "_" right_now /\
  Py.contains " " right_now_full = false /\
  String.length right_now_full = String.length right_now.
Proof.
  intros f. subst f. rewrite (join_replace " " "_").
  split; [reflexivity|]. split; [now apply replace_char_gone|apply replace_char_length].
Qed.

(** ** The key of a file name *)

(** What follows the first dot of a name plays no part in its key: a
    read file and its compressed copy have the same key. *)
Theorem key_ignores_what_follows_first_dot (stem rest : string) :
  Py.contains "." stem = false ->
  filename_out_of (stem +:+ "." +:+ rest) = filename_out_of stem.
Proof.
  intros Hs. unfold filename_out_of.
  change ("." +:+ rest) with (String "." rest).
  rewrite (split_app_sep _ _ _ Hs), (split_without_sep _ _ Hs). reflexivity.
Qed.

Lemma startswith_append c k x :
  Py.contains c k = false -> Py.startswith c x = false ->
  Py.startswith c (k +:+ x) = false.
Proof.
  destruct k as [|d k]; [intros _ Hx; exact Hx|]. simpl. intros Hc _.
  apply orb_false_iff in Hc as [Hc _]. exact Hc.
Qed.

(** The key is the text between the first and the second underscore of
    the name: for a name made of a tag, an underscore, a key and then
    nothing, or something that starts with an underscore or a dot, where
    tag and key hold neither an underscore nor a dot, the key is read. *)
Theorem key_is_second_underscore_token (tag key rest : string) :
  Py.contains "_" tag = false -> Py.contains "." tag = false ->
  Py.contains "_" key = false -> Py.contains "." key = false ->
  rest = EmptyString \/ Py.startswith "_" rest = true \/ Py.startswith "." rest = true ->
  filename_out_of (tag +:+ "_" +:+ key +:+ rest) = Some key.
Proof.
  intros Ht Htd Hk Hkd Hrest. unfold filename_out_of.
  change ("_" +:+ key +:+ rest) with (String "_" (key +:+ rest)).
  destruct Hrest as [->|[Hr|Hr]].
  - assert (E : key +:+ EmptyString = key).
    { clear. induction key as [|c k IH]; [reflexivity|].
      rewrite ?append_cons. now rewrite IH. }
    rewrite E.
    assert (Hd : Py.contains "." (tag +:+ String "_" key) = false).
    { clear -Htd Hkd. induction tag as [|c t IH]; simpl in *.
      - exact Hkd.
      - rewrite ?append_cons. simpl. apply orb_false_iff in Htd as [-> Htd].
        now rewrite IH. }
    rewrite (split_without_sep _ _ Hd). simpl.
    rewrite (split_app_sep _ _ _ Ht), (split_without_sep _ _ Hk). reflexivity.
  - destruct rest as [|c rest]; [discriminate|]. simpl in Hr.
    apply Ascii.eqb_eq in Hr. subst c.
    rewrite (split_app_nosep "." tag); [|exact Htd].
    change (String "_" (key +:+ String "_" rest))
      with ("_" +:+ (key +:+ String "_" rest)).
    rewrite (split_app_nosep "." "_"); [|reflexivity].
    rewrite (split_app_nosep "." key); [|exact Hkd].
    change (String "_" rest) with ("_" +:+ rest).
    rewrite (split_app_nosep "." "_"); [|reflexivity].
    pose proof (split_not_nil "." rest) as Hn.
    destruct (Py.split "." rest) as [|w ws]; [contradiction|]. simpl.
    change ("_" +:+ key +:+ "_" +:+ w) with (String "_" (key +:+ String "_" w)).
    rewrite (split_app_sep _ _ _ Ht), (split_app_sep _ _ _ Hk). reflexivity.
  - destruct rest as [|c rest]; [discriminate|]. simpl in Hr.
    apply Ascii.eqb_eq in Hr. subst c.
    assert (Hd : Py.contains "." (tag +:+ String "_" key) = false).
    { clear -Htd Hkd. induction tag as [|c t IH]; simpl in *.
      - exact Hkd.
      - rewrite ?append_cons. simpl. apply orb_false_iff in Htd as [-> Htd].
        now rewrite IH. }
    replace (tag +:+ String "_" (key +:+ String "." rest))
      with ((tag +:+ String "_" key) +:+ String "." rest).
    + rewrite (split_app_sep _ _ _ Hd). simpl.
      rewrite (split_app_sep _ _ _ Ht), (split_without_sep _ _ Hk). reflexivity.
    + rewrite append_assoc. reflexivity.
Qed.

Lemma key_token name key :
  filename_out_of name = Some key ->
  exists stem, stem ∈ Py.split "." name /\ key ∈ Py.split "_" stem.
Proof.
  unfold filename_out_of, Py.index. intros Hk.
  destruct (Py.split "." name !! 0) as [stem|] eqn:Hs; [|discriminate].
  simpl in Hk. exists stem.
  split; eapply list_elem_of_lookup_2; eassumption.
Qed.

Lemma key_chars (name key : string) :
  filename_out_of name = Some key ->
  forall c, Py.contains c name = false -> Py.contains c key = false.
Proof.
  intros Hk c Hn. destruct (key_token _ _ Hk) as (stem & Hs & Hkey).
  destruct (Py.contains c key) eqn:Hc; [|reflexivity].
  pose proof (split_tokens_sub "_" c stem) as H3.
  pose proof (split_tokens_sub "." c name) as H4.
  rewrite Forall_forall in H3, H4.
  rewrite (H4 _ Hs (H3 _ Hkey Hc)) in Hn. discriminate.
Qed.

(** A key that is read holds neither an underscore nor a dot, and no
    character that the name does not hold. *)
Theorem key_has_no_separator (name key : string) :
  filename_out_of name = Some key ->
  Py.contains "_" key = false /\
  Py.contains "." key = false /\
  forall c, Py.contains c name = false -> Py.contains c key = false.
Proof.
  intros Hk. destruct (key_token _ _ Hk) as (stem & Hs & Hkey).
  pose proof (split_tokens_no_sep "_" stem) as H1.
  pose proof (split_tokens_no_sep "." name) as H2.
  rewrite Forall_forall in H1, H2.
  split; [apply H1, Hkey|]. split; [|now apply key_chars].
  destruct (Py.contains "." key) eqn:Hc; [|reflexivity].
  pose proof (split_tokens_sub "_" "." stem) as H3.
  rewrite Forall_forall in H3. rewrite (H2 _ Hs) in H3.
  specialize (H3 _ Hkey Hc). discriminate.
Qed.

Lemma bai_path_eq (out_sorted_bam filename_out : string) :
  filename_bai_out_of out_sorted_bam filename_out =
  filename_bam_out_of out_sorted_bam filename_out +:+ ".bai".
Proof.
  unfold filename_bai_out_of, filename_bam_out_of, Py.path_join.
  assert (E : filename_out +:+ ".sort.bam.bai" = (filename_out +:+ ".sort.bam") +:+ ".bai")
    by (rewrite append_assoc; reflexivity).
  assert (Hs : Py.startswith "/" (filename_out +:+ ".sort.bam.bai")
               = Py.startswith "/" (filename_out +:+ ".sort.bam"))
    by (destruct filename_out; reflexivity).
  rewrite Hs, E.
  destruct (Py.startswith "/" (filename_out +:+ ".sort.bam")); [reflexivity|].
  destruct (bool_decide (out_sorted_bam = EmptyString) || Py.endswith "/" out_sorted_bam);
    rewrite ?append_assoc; reflexivity.
Qed.

(** The index the stage looks for is the sorted alignment file's path
    followed by [.bai], the place where [samtools index] leaves it: once
    the indexing of a file has been invoked with such a program, the
    stage finds the file indexed. *)
Theorem index_path_is_sorted_path_bai
    (H : host) (out_sorted_bam name key : string) (fs : FS) :
  index_tool_leaves_index H ->
  filename_out_of name = Some key ->
  filename_bai_out_of out_sorted_bam key =
    filename_bam_out_of out_sorted_bam key +:+ ".bai" /\
  indexed out_sorted_bam
    (subprocess_effect H
       (Argv (cmd_indexing_of (filename_bam_out_of out_sorted_bam key))) false fs)
    name = true.
Proof.
  intros Hidx Hk. split; [apply bai_path_eq|].
  unfold indexed. rewrite Hk, bai_path_eq. apply Hidx.
Qed.

(** ** The mapping stage over a whole listing *)

Lemma for_each_all_skip {A} (l : list A) body (line : A -> option event) fs :
  (forall x, x ∈ l -> exists ev, line x = Some ev /\ body x fs = Outcome (Ok tt) fs [ev]) ->
  for_each l body fs = Outcome (Ok tt) fs (omap line l).
Proof.
  induction l as [|x l IH]; intros Hb; [reflexivity|].
  destruct (Hb x) as (ev & Hl & Hx); [left|].
  rewrite for_each_cons, (bind_run _ _ _ _ _ _ Hx).
  rewrite IH by (intros y Hy; apply Hb; now right).
  cbn [res fs_after events omap list_omap]. simpl. rewrite Hl. reflexivity.
Qed.

(** When every file of the listing has a key and its index on disk, the
    mapping stage returns after one skip line per file, in the order of
    the listing: it invokes nothing and leaves every file as it was. A
    listing without files is the case without any line. *)
Theorem mapping_of_indexed_listing_is_noop
    (H : host) (walk : list (string * list string))
    (out_sorted_bam reference : string) (fs : FS) :
  all_indexed out_sorted_bam fs walk = true ->
  map_walk H walk out_sorted_bam reference fs =
    Outcome (Ok tt) fs (skip_lines out_sorted_bam walk) /\
  invocations (skip_lines out_sorted_bam walk) = [].
Proof.
  intros Hall. split.
  - unfold map_walk, skip_lines, all_indexed in *.
    induction walk as [|[root files] walk IH]; [reflexivity|].
    simpl in Hall. apply andb_true_iff in Hall as [Hfiles Hwalk].
    rewrite for_each_cons.
    assert (Hin : for_each files
                    (fun name => map_one H out_sorted_bam reference root name) fs
                  = Outcome (Ok tt) fs
                      (omap (fun name => skip_line out_sorted_bam <$> filename_out_of name)
                            files)).
    { apply for_each_all_skip. intros name Hn.
      rewrite forallb_forall in Hfiles.
      specialize (Hfiles name (proj1 (list_elem_of_In _ _) Hn)).
      unfold indexed in Hfiles.
      destruct (filename_out_of name) as [key|] eqn:Hk; [|discriminate].
      exists (skip_line out_sorted_bam key). split; [reflexivity|].
      now apply map_one_skip. }
    rewrite (bind_run _ _ _ _ _ _ Hin), (IH Hwalk). reflexivity.
  - unfold skip_lines, invocations.
    induction walk as [|[root files] walk IH]; [reflexivity|].
    simpl in Hall. apply andb_true_iff in Hall as [_ Hwalk].
    simpl. rewrite List.filter_app, (IH Hwalk), app_nil_r.
    clear. induction files as [|name files IH]; [reflexivity|].
    simpl. destruct (filename_out_of name); simpl; exact IH.
Qed.

Lemma res_bind {A B} (m : M A) (k : A -> M B) fs :
  res (bind m k fs) =
    match res (m fs) with
    | Ok x => res (k x (fs_after (m fs)))
    | Raise e => Raise e
    end.
Proof. unfold bind. destruct (res (m fs)); reflexivity. Qed.

Lemma fs_after_bind {A B} (m : M A) (k : A -> M B) fs :
  fs_after (bind m k fs) =
    match res (m fs) with
    | Ok x => fs_after (k x (fs_after (m fs)))
    | Raise _ => fs_after (m fs)
    end.
Proof. unfold bind. destruct (res (m fs)); reflexivity. Qed.

Lemma for_each_invariant {A} (l : list A) body (Q : FS -> Prop) fs :
  (forall x fs', Q fs' -> Q (fs_after (body x fs'))) ->
  Q fs -> Q (fs_after (for_each l body fs)).
Proof.
  intros Hb. revert fs. induction l as [|x l IH]; intros fs HQ; [exact HQ|].
  rewrite for_each_cons, fs_after_bind.
  destruct (res (body x fs)); [apply IH|]; now apply Hb.
Qed.

Lemma for_each_establish {A} (l : list A) body (Q : A -> FS -> Prop) fs :
  (forall x fs', res (body x fs') = Ok tt -> Q x (fs_after (body x fs'))) ->
  (forall x y fs', Q y fs' -> Q y (fs_after (body x fs'))) ->
  res (for_each l body fs) = Ok tt ->
  forall x, x ∈ l -> Q x (fs_after (for_each l body fs)).
Proof.
  intros He Hp. revert fs. induction l as [|y l IH]; intros fs Hok x Hx;
    [now apply elem_of_nil in Hx|].
  rewrite for_each_cons, res_bind in Hok. rewrite for_each_cons, fs_after_bind.
  destruct (res (body y fs)) as [[]|e] eqn:Hy; [|discriminate].
  apply elem_of_cons in Hx as [->|Hx].
  - apply for_each_invariant; [intros; now apply Hp|now apply He].
  - now apply IH.
Qed.

Section Tools.

Variable H : host.
Hypothesis Hkeep : tools_keep_files H.
Hypothesis Hindex : index_tool_leaves_index H.
Variables out_sorted_bam reference : string.

Lemma map_one_keeps_files root name fs p :
  isfile fs p = true ->
  isfile (fs_after (map_one H out_sorted_bam reference root name fs)) p = true.
Proof.
  intros Hp. destruct (filename_out_of name) as [key|] eqn:Hk.
  - destruct (isfile fs (filename_bai_out_of out_sorted_bam key)) eqn:Hi.
    + now rewrite (map_one_skip _ _ _ _ _ _ _ Hk Hi).
    + rewrite (map_one_run _ _ _ _ _ _ _ Hk Hi). cbn [fs_after].
      now apply Hkeep, Hkeep.
  - now rewrite (map_one_raise _ _ _ _ _ _ Hk).
Qed.

Lemma map_one_keeps_indexed root name other fs :
  indexed out_sorted_bam fs other = true ->
  indexed out_sorted_bam (fs_after (map_one H out_sorted_bam reference root name fs))
          other = true.
Proof.
  unfold indexed. destruct (filename_out_of other); [|discriminate].
  apply map_one_keeps_files.
Qed.

Lemma map_one_indexes root name fs :
  res (map_one H out_sorted_bam reference root name fs) = Ok tt ->
  indexed out_sorted_bam (fs_after (map_one H out_sorted_bam reference root name fs))
          name = true.
Proof.
  intros Hok. unfold indexed.
  destruct (filename_out_of name) as [key|] eqn:Hk.
  - destruct (isfile fs (filename_bai_out_of out_sorted_bam key)) eqn:Hi.
    + now rewrite (map_one_skip _ _ _ _ _ _ _ Hk Hi).
    + rewrite (map_one_run _ _ _ _ _ _ _ Hk Hi). cbn [fs_after].
      rewrite bai_path_eq. apply Hindex.
  - rewrite (map_one_raise _ _ _ _ _ _ Hk) in Hok. discriminate.
Qed.

Lemma map_walk_indexes walk fs :
  res (map_walk H walk out_sorted_bam reference fs) = Ok tt ->
  all_indexed out_sorted_bam
    (fs_after (map_walk H walk out_sorted_bam reference fs)) walk = true.
Proof.
  intros Hok. unfold all_indexed. apply forallb_forall. intros rf Hrf.
  apply list_elem_of_In in Hrf.
  unfold map_walk in *.
  set (body := fun rf : string * list string =>
                 let '(root, files) := rf in
                 for_each files
                   (fun name => map_one H out_sorted_bam reference root name)) in *.
  set (Q := fun (rf : string * list string) (fs' : FS) =>
              forallb (indexed out_sorted_bam fs') rf.2 = true).
  change (Q rf (fs_after (for_each walk body fs))).
  apply for_each_establish; [| |exact Hok|exact Hrf].
  - intros [r fl] fs' Hok'. unfold Q, body in *. cbn [snd].
    apply forallb_forall. intros name Hn. apply list_elem_of_In in Hn.
    set (Q' := fun (n : string) (fs'' : FS) => indexed out_sorted_bam fs'' n = true).
    change (Q' name (fs_after (for_each fl
              (fun name => map_one H out_sorted_bam reference r name) fs'))).
    apply for_each_establish; [| |exact Hok'|exact Hn].
    + intros n fs''. apply map_one_indexes.
    + intros n other fs''. apply map_one_keeps_indexed.
  - intros [r fl] [r' fl'] fs' HQ. unfold Q, body in *. cbn [snd] in *.
    apply forallb_forall. intros name Hn.
    rewrite forallb_forall in HQ. specialize (HQ name Hn).
    revert HQ.
    apply (for_each_invariant fl _
             (fun fs'' => indexed out_sorted_bam fs'' name = true)).
    intros n fs''. apply map_one_keeps_indexed.
Qed.

End Tools.

(** With external programs that remove no file and whose [samtools
    index] leaves the index, a mapping stage that has returned has left
    every file of the listing indexed, and running the stage again on the
    result invokes nothing and changes nothing: it returns after one skip
    line per file. *)
Theorem mapping_rerun_is_noop
    (H : host) (walk : list (string * list string))
    (out_sorted_bam reference : string) (fs : FS) :
  tools_keep_files H ->
  index_tool_leaves_index H ->
  res (map_walk H walk out_sorted_bam reference fs) = Ok tt ->
  let fs1 := fs_after (map_walk H walk out_sorted_bam reference fs) in
  all_indexed out_sorted_bam fs1 walk = true /\
  map_walk H walk out_sorted_bam reference fs1 =
    Outcome (Ok tt) fs1 (skip_lines out_sorted_bam walk) /\
  invocations (events (map_walk H walk out_sorted_bam reference fs1)) = [].
Proof.
  intros Hkeep Hindex Hok fs1. subst fs1.
  pose proof (map_walk_indexes H Hkeep Hindex out_sorted_bam reference walk fs Hok) as Hall.
  destruct (mapping_of_indexed_listing_is_noop H walk out_sorted_bam reference _ Hall)
    as [Hrun Hinv].
  split; [exact Hall|]. split; [exact Hrun|]. now rewrite Hrun.
Qed.



(** ** The driver past the mapping stage *)

Lemma allow_list_variant_calls a : List.filter is_variant_call (allow_list_events a) = [].
Proof. unfold allow_list_events. destruct (arg_sample_list a); reflexivity. Qed.

Lemma mapping_variant_calls H walk out_sorted_bam reference fs :
  List.filter is_variant_call (events (map_walk H walk out_sorted_bam reference fs)) = [].
Proof.
  apply filter_none. eapply Forall_impl; [apply map_walk_events|].
  intros [] He; simpl in *; tauto.
Qed.

(** ** Where a run writes *)

Lemma prefix_append a x : String.prefix a (a +:+ x) = true.
Proof.
  induction a as [|c a IH]; [now destruct x|].
  rewrite append_cons. simpl. destruct (ascii_dec c c); [exact IH|contradiction].
Qed.

Lemma path_join_relative_sep a :
  exists s, (s = EmptyString \/ s = "/") /\
            forall b, Py.startswith "/" b = false -> Py.path_join a b = a +:+ s +:+ b.
Proof.
  unfold Py.path_join.
  destruct (bool_decide (a = EmptyString) || Py.endswith "/" a) eqn:E.
  - exists EmptyString. split; [now left|]. intros b ->. reflexivity.
  - exists "/". split; [now right|]. intros b ->. reflexivity.
Qed.

Lemma append_nonempty_neq a x : x <> EmptyString -> a +:+ x <> a.
Proof.
  intros Hx E. apply Hx. induction a as [|c a IH]; [exact E|].
  rewrite append_cons in E. injection E. exact IH.
Qed.

(** The eleven folders the driver declares are eleven different paths,
    all of them under the output root and none of them the root. *)
Theorem declared_folders_are_distinct_and_under_root (output_dir : string) :
  NoDup (declared (folders_of output_dir)) /\
  Forall (fun p => String.prefix output_dir p = true /\ p <> output_dir)
         (declared (folders_of output_dir)).
Proof.
  destruct (path_join_relative_sep output_dir) as (s & Hsv & Hs).
  destruct (path_join_relative_sep (Py.path_join output_dir "Stats")) as (s1 & Hs1v & Hs1).
  destruct (path_join_relative_sep (Py.path_join output_dir "Annotation"))
    as (s2 & Hs2v & Hs2).
  unfold declared, only_declared, folders_of; cbn [out_bam_dir out_variant_dir out_stats_dir
    out_stats_bamstats_dir out_stats_coverage_dir out_compare_dir out_annot_dir
    out_annot_snpeff_dir out_annot_user_dir out_annot_user_aa_dir out_annot_blast_dir].
  rewrite !Hs1, !Hs2, !Hs by reflexivity.
  rewrite !append_assoc.
  split.
  - destruct Hsv as [-> | ->], Hs1v as [-> | ->], Hs2v as [-> | ->];
      repeat (apply NoDup_cons; split;
              [rewrite ?not_elem_of_cons; repeat split;
               try apply not_elem_of_nil;
               intros E; apply append_cancel_l in E; vm_compute in E; discriminate E|]);
      apply NoDup_nil_2.
  - repeat constructor; try apply prefix_append;
      apply append_nonempty_neq;
      destruct Hsv as [-> | ->], Hs1v as [-> | ->], Hs2v as [-> | ->]; discriminate.
Qed.

(** For a file name without a slash, as a directory listing gives them,
    the sorted alignment file and its index are placed under the folder
    given to the stage. *)
Theorem artifacts_are_placed_under_bam_dir (out_sorted_bam name key : string) :
  Py.contains "/" name = false ->
  filename_out_of name = Some key ->
  String.prefix out_sorted_bam (filename_bam_out_of out_sorted_bam key) = true /\
  String.prefix out_sorted_bam (filename_bai_out_of out_sorted_bam key) = true /\
  filename_bam_out_of out_sorted_bam key <> out_sorted_bam.
Proof.
  intros Hn Hk.
  pose proof (key_chars _ _ Hk "/"%char Hn) as Hc.
  destruct (path_join_relative_sep out_sorted_bam) as (s & Hsv & Hs).
  unfold filename_bam_out_of, filename_bai_out_of.
  rewrite !Hs by (apply startswith_append; [exact Hc|reflexivity]).
  split; [apply prefix_append|]. split; [apply prefix_append|].
  apply append_nonempty_neq.
  destruct Hsv as [-> | ->]; destruct key; discriminate.
Qed.

(** The log file of a run is opened in the [Logs] folder of the output
    root, whatever the output path and the time of the run, and its name
    ends the way the driver names it. *)
Theorem log_file_is_opened_in_logs_folder (H : host) (a : Args) (fs : FS) :
  OpenLogFile (log_full_path_of H a) ∈ events (main H a fs) /\
  String.prefix (log_folder_of H a) (log_full_path_of H a) = true /\
  String.prefix (output_dir_of H a) (log_folder_of H a) = true /\
  exists group_name s,
    Py.index_last (Py.split "/" (output_dir_of H a)) = Some group_name /\
    Py.contains "/" group_name = false /\
    log_full_path_of H a =
      log_folder_of H a +:+ s +:+ group_name +:+ "_"
      +:+ replace_char " " "_" (now H) +:+ ".log".
Proof.
  split.
  { rewrite main_run. cbv zeta.
    destruct (res (mapping_of_run H a fs)); cbn [events];
      rewrite ?elem_of_app; [left; left|left]; rewrite !elem_of_cons; auto. }
  destruct (index_last_split "/" (output_dir_of H a)) as [g Hg].
  assert (Hgc : Py.contains "/" g = false).
  { pose proof (split_tokens_no_sep "/" (output_dir_of H a)) as Hf.
    rewrite Forall_forall in Hf. apply Hf.
    unfold Py.index_last in Hg. apply last_Some in Hg as [l' ->].
    apply elem_of_app. right. left. }
  destruct (path_join_relative_sep (log_folder_of H a)) as (s & _ & Hs).
  destruct (path_join_relative_sep (output_dir_of H a)) as (s' & _ & Hs').
  assert (E : log_full_path_of H a =
              log_folder_of H a +:+ s +:+ g +:+ "_"
              +:+ replace_char " " "_" (now H) +:+ ".log").
  { unfold log_full_path_of. rewrite Hg. cbn [default from_option].
    rewrite (join_replace " " "_").
    apply Hs. apply startswith_append; [exact Hgc|reflexivity]. }
  split; [rewrite E; apply prefix_append|].
  split; [unfold log_folder_of; rewrite Hs' by reflexivity; apply prefix_append|].
  exists g, s. auto.
Qed.

(** ** Concrete runs of the further properties *)

Lemma index_writer_keeps_files reads : tools_keep_files (host_index_writer reads).
Proof.
  intros cmd isShell fs p Hp. cbn [subprocess_effect host_index_writer].
  destruct cmd as [line|l]; [exact Hp|]. unfold index_writer.
  destruct (last l) as [sorted|]; [|exact Hp].
  unfold isfile in *. destruct (decide (sorted +:+ ".bai" = p)) as [->|Hne].
  - now rewrite lookup_insert_eq.
  - now rewrite lookup_insert_ne.
Qed.

Lemma index_writer_leaves_index reads : index_tool_leaves_index (host_index_writer reads).
Proof.
  intros sorted fs. cbn [subprocess_effect host_index_writer index_writer last].
  unfold isfile. now rewrite lookup_insert_eq.
Qed.

Lemma key_ignores_what_follows_first_dot_witness :
  Py.contains "." "HQ_S1" = false /\
  filename_out_of ("HQ_S1" +:+ "." +:+ "fastq.gz") = filename_out_of "HQ_S1".
Proof.
  split; [reflexivity|].
  exact (key_ignores_what_follows_first_dot "HQ_S1" "fastq.gz" eq_refl).
Defined.

Lemma key_is_second_underscore_token_witness :
  Py.contains "_" "HQ" = false /\ Py.contains "." "HQ" = false /\
  Py.contains "_" "S1" = false /\ Py.contains "." "S1" = false /\
  Py.startswith "_" "_run1.fastq" = true /\
  filename_out_of ("HQ" +:+ "_" +:+ "S1" +:+ "_run1.fastq") = Some "S1".
Proof.
  repeat (split; [reflexivity|]).
  exact (key_is_second_underscore_token "HQ" "S1" "_run1.fastq"
           eq_refl eq_refl eq_refl eq_refl (or_intror (or_introl eq_refl))).
Defined.

Lemma key_has_no_separator_witness :
  filename_out_of "HQ_S1_run1.fastq" = Some "S1" /\
  Py.contains "_" "S1" = false /\ Py.contains "." "S1" = false.
Proof.
  split; [reflexivity|].
  pose proof (key_has_no_separator "HQ_S1_run1.fastq" "S1" eq_refl) as W.
  split; [exact (proj1 W)|exact (proj1 (proj2 W))].
Defined.

Lemma index_path_is_sorted_path_bai_witness :
  index_tool_leaves_index (host_index_writer ["HQ_S1.fastq"]) /\
  filename_out_of "HQ_S1.fastq" = Some "S1" /\
  indexed demo_bam
    (subprocess_effect (host_index_writer ["HQ_S1.fastq"])
       (Argv (cmd_indexing_of (filename_bam_out_of demo_bam "S1"))) false ∅)
    "HQ_S1.fastq" = true.
Proof.
  split; [apply index_writer_leaves_index|]. split; [reflexivity|].
  exact (proj2 (index_path_is_sorted_path_bai (host_index_writer ["HQ_S1.fastq"])
                  demo_bam "HQ_S1.fastq" "S1" ∅
                  (index_writer_leaves_index _) eq_refl)).
Defined.

Lemma mapping_of_indexed_listing_is_noop_witness :
  all_indexed demo_bam fs_index_only [(demo_dir, ["HQ_S1.fastq"])] = true /\
  map_walk host_one_read [(demo_dir, ["HQ_S1.fastq"])] demo_bam demo_ref fs_index_only =
    Outcome (Ok tt) fs_index_only (skip_lines demo_bam [(demo_dir, ["HQ_S1.fastq"])]).
Proof.
  split; [reflexivity|].
  exact (proj1 (mapping_of_indexed_listing_is_noop host_one_read
                  [(demo_dir, ["HQ_S1.fastq"])] demo_bam demo_ref fs_index_only eq_refl)).
Defined.

Lemma mapping_rerun_is_noop_witness :
  tools_keep_files (host_index_writer ["HQ_S1.fastq"; "HQ_S2.fastq"]) /\
  index_tool_leaves_index (host_index_writer ["HQ_S1.fastq"; "HQ_S2.fastq"]) /\
  res (map_walk (host_index_writer ["HQ_S1.fastq"; "HQ_S2.fastq"])
         [(demo_dir, ["HQ_S1.fastq"; "HQ_S2.fastq"])] demo_bam demo_ref ∅) = Ok tt /\
  invocations
    (events (map_walk (host_index_writer ["HQ_S1.fastq"; "HQ_S2.fastq"])
               [(demo_dir, ["HQ_S1.fastq"; "HQ_S2.fastq"])] demo_bam demo_ref
               (fs_after (map_walk (host_index_writer ["HQ_S1.fastq"; "HQ_S2.fastq"])
                            [(demo_dir, ["HQ_S1.fastq"; "HQ_S2.fastq"])]
                            demo_bam demo_ref ∅)))) = [].
Proof.
  split; [apply index_writer_keeps_files|].
  split; [apply index_writer_leaves_index|]. split; [reflexivity|].
  exact (proj2 (proj2 (mapping_rerun_is_noop
                         (host_index_writer ["HQ_S1.fastq"; "HQ_S2.fastq"])
                         [(demo_dir, ["HQ_S1.fastq"; "HQ_S2.fastq"])] demo_bam demo_ref ∅
                         (index_writer_keeps_files _) (index_writer_leaves_index _)
                         eq_refl))).
Defined.

Lemma artifacts_are_placed_under_bam_dir_witness :
  Py.contains "/" "HQ_S1.fastq" = false /\
  filename_out_of "HQ_S1.fastq" = Some "S1" /\
  String.prefix demo_bam (filename_bam_out_of demo_bam "S1") = true.
Proof.
  split; [reflexivity|]. split; [reflexivity|].
  exact (proj1 (artifacts_are_placed_under_bam_dir demo_bam "HQ_S1.fastq" "S1"
                  eq_refl eq_refl)).
Defined.

(** * The mapping stage, file by file along the listing *)

Lemma for_each_app_bind {A} (l1 l2 : list A) body fs :
  for_each (l1 ++ l2) body fs =
  bind (for_each l1 body) (fun _ => for_each l2 body) fs.
Proof.
  revert fs. induction l1 as [|x l1 IH]; intros fs.
  - simpl. unfold bind, ret. simpl. now destruct (for_each l2 body fs).
  - cbn [for_each app]. unfold bind.
    destruct (body x fs) as [[[]|e] fs' ev]; cbn [res fs_after events].
    + rewrite IH. unfold bind.
      destruct (for_each l1 body fs') as [[[]|e'] fs'' ev']; cbn [res fs_after events];
        rewrite ?app_assoc; reflexivity.
    + reflexivity.
Qed.

Lemma for_each_map {A B} (f : A -> B) (l : list A) body fs :
  for_each (map f l) body fs = for_each l (fun x => body (f x)) fs.
Proof.
  revert fs. induction l as [|x l IH]; intros fs; [reflexivity|].
  simpl. unfold bind. destruct (res (body (f x) fs)); [|reflexivity].
  now rewrite IH.
Qed.

Lemma for_each_ext {A} (l : list A) body1 body2 fs :
  (forall x fs', body1 x fs' = body2 x fs') ->
  for_each l body1 fs = for_each l body2 fs.
Proof.
  intros Hb. revert fs. induction l as [|x l IH]; intros fs; [reflexivity|].
  simpl. unfold bind. rewrite Hb. destruct (res (body2 x fs)); [|reflexivity].
  now rewrite IH.
Qed.

(** The two loops take the files of the listing one after the other. *)
Lemma walk_flat (inner : string -> string -> M unit) walk fs :
  for_each walk (fun '(root, files) => for_each files (inner root)) fs =
  for_each (flat_listing walk) (fun rn => inner rn.1 rn.2) fs.
Proof.
  revert fs. induction walk as [|[root files] walk IH]; intros fs; [reflexivity|].
  unfold flat_listing. cbn [flat_map fst snd]. fold (flat_listing walk).
  rewrite for_each_app_bind, for_each_cons. unfold bind.
  rewrite for_each_map. cbn [fst snd].
  destruct (res (for_each files (fun x => inner root x) fs)); [|reflexivity].
  now rewrite IH.
Qed.

Lemma flat_listing_split pre root before name after post :
  flat_listing (pre ++ (root, before ++ name :: after) :: post) =
  flat_listing (pre ++ [(root, before)]) ++ (root, name) :: flat_listing ((root, after) :: post).
Proof.
  unfold flat_listing. rewrite !flat_map_app. cbn [flat_map fst snd].
  rewrite map_app, app_nil_r. cbn [map]. rewrite <- !app_assoc. reflexivity.
Qed.

(** The stage at one file of the listing: what it has done on the files
    listed before, then the body of the loop on that file, then, when the
    body returned, the files listed after. *)
Lemma walk_step (inner : string -> string -> M unit)
    pre root before name after post fs :
  res (for_each (pre ++ [(root, before)])
         (fun '(root, files) => for_each files (inner root)) fs) = Ok tt ->
  for_each (pre ++ (root, before ++ name :: after) :: post)
    (fun '(root, files) => for_each files (inner root)) fs =
  match res (inner root name
               (fs_after (for_each (pre ++ [(root, before)])
                            (fun '(root, files) => for_each files (inner root)) fs))) with
  | Ok _ =>
      Outcome
        (res (for_each ((root, after) :: post)
                (fun '(root, files) => for_each files (inner root))
                (fs_after (inner root name
                   (fs_after (for_each (pre ++ [(root, before)])
                      (fun '(root, files) => for_each files (inner root)) fs))))))
        (fs_after (for_each ((root, after) :: post)
                (fun '(root, files) => for_each files (inner root))
                (fs_after (inner root name
                   (fs_after (for_each (pre ++ [(root, before)])
                      (fun '(root, files) => for_each files (inner root)) fs))))))
        (events (for_each (pre ++ [(root, before)])
                   (fun '(root, files) => for_each files (inner root)) fs)
         ++ events (inner root name
                      (fs_after (for_each (pre ++ [(root, before)])
                         (fun '(root, files) => for_each files (inner root)) fs)))
         ++ events (for_each ((root, after) :: post)
                (fun '(root, files) => for_each files (inner root))
                (fs_after (inner root name
                   (fs_after (for_each (pre ++ [(root, before)])
                      (fun '(root, files) => for_each files (inner root)) fs))))))
  | Raise e =>
      Outcome (Raise e)
        (fs_after (inner root name
           (fs_after (for_each (pre ++ [(root, before)])
              (fun '(root, files) => for_each files (inner root)) fs))))
        (events (for_each (pre ++ [(root, before)])
                   (fun '(root, files) => for_each files (inner root)) fs)
         ++ events (inner root name
                      (fs_after (for_each (pre ++ [(root, before)])
                         (fun '(root, files) => for_each files (inner root)) fs))))
  end.
Proof.
  rewrite !walk_flat, flat_listing_split. intros Hok.
  rewrite (for_each_app _ _ _ _ Hok), for_each_cons. unfold bind. cbn [fst snd].
  destruct (res (inner root name _)); reflexivity.
Qed.

Section CheckedMapOne.

Variable H : host.
Variable fatal : command -> bool -> FS -> bool.
Variables out_sorted_bam reference root name : string.

Lemma checked_execute_subprocess_run cmd isShell fs :
  Checked.execute_subprocess H fatal cmd isShell fs =
    Outcome (if fatal cmd isShell fs then Raise SubprocessError else Ok tt)
      (subprocess_effect H cmd isShell fs) [ExecuteSubprocess cmd isShell].
Proof.
  unfold Checked.execute_subprocess, bind, emit, read_fs, update_fs. cbn [res fs_after events].
  destruct (fatal cmd isShell fs); reflexivity.
Qed.

Lemma checked_map_one_raise fs :
  filename_out_of name = None ->
  Checked.map_one H fatal out_sorted_bam reference root name fs =
    Outcome (Raise IndexError) fs [].
Proof. intros Hk. unfold Checked.map_one, bind. rewrite Hk. reflexivity. Qed.

Lemma checked_map_one_skip fs key :
  filename_out_of name = Some key ->
  isfile fs (filename_bai_out_of out_sorted_bam key) = true ->
  Checked.map_one H fatal out_sorted_bam reference root name fs =
    Outcome (Ok tt) fs [skip_line out_sorted_bam key].
Proof.
  intros Hk Hi. unfold Checked.map_one, bind. rewrite Hk. simpl. rewrite Hi. reflexivity.
Qed.

Lemma checked_map_one_run fs key :
  filename_out_of name = Some key ->
  isfile fs (filename_bai_out_of out_sorted_bam key) = false ->
  Checked.map_one H fatal out_sorted_bam reference root name fs =
    if fatal (Line (cmd_minimap2_of reference (Py.path_join root name)
                      (filename_bam_out_of out_sorted_bam key))) true fs
    then
      Outcome (Raise SubprocessError)
        (subprocess_effect H
           (Line (cmd_minimap2_of reference (Py.path_join root name)
                    (filename_bam_out_of out_sorted_bam key))) true fs)
        [mapping_line key; pipeline_call out_sorted_bam reference root name key]
    else
      Outcome
        (if fatal (Argv (cmd_indexing_of (filename_bam_out_of out_sorted_bam key))) false
              (subprocess_effect H
                 (Line (cmd_minimap2_of reference (Py.path_join root name)
                          (filename_bam_out_of out_sorted_bam key))) true fs)
         then Raise SubprocessError else Ok tt)
        (subprocess_effect H
           (Argv (cmd_indexing_of (filename_bam_out_of out_sorted_bam key))) false
           (subprocess_effect H
              (Line (cmd_minimap2_of reference (Py.path_join root name)
                       (filename_bam_out_of out_sorted_bam key))) true fs))
        [mapping_line key; pipeline_call out_sorted_bam reference root name key;
         index_call out_sorted_bam key].
Proof.
  intros Hk Hi. unfold Checked.map_one. rewrite Hk.
  rewrite (bind_run _ _ fs key fs [] eq_refl). cbv beta.
  rewrite (bind_run _ _ fs (isfile fs (filename_bai_out_of out_sorted_bam key)) fs []
             eq_refl).
  cbv beta. rewrite Hi.
  rewrite (bind_run _ _ fs tt fs [mapping_line key] eq_refl).
  cbn [res fs_after events app].
  unfold bind. rewrite !checked_execute_subprocess_run. cbn [res fs_after events].
  destruct (fatal (Line _) true fs); cbn [res fs_after events]; [reflexivity|].
  rewrite ?checked_execute_subprocess_run. cbn [res fs_after events].
  destruct (fatal (Argv _) false _); reflexivity.
Qed.

End CheckedMapOne.

(** With programs that all end well the stage is the one of the first
    part. *)
Lemma checked_map_walk_all_succeed H walk out_sorted_bam reference fs :
  Checked.map_walk H all_succeed walk out_sorted_bam reference fs =
  map_walk H walk out_sorted_bam reference fs.
Proof.
  unfold Checked.map_walk, map_walk.
  apply for_each_ext. intros [root files] fs'.
  apply for_each_ext. intros name fs''.
  destruct (filename_out_of name) as [key|] eqn:Hk.
  - destruct (isfile fs'' (filename_bai_out_of out_sorted_bam key)) eqn:Hi.
    + now rewrite (checked_map_one_skip _ _ _ _ _ _ _ _ Hk Hi),
                  (map_one_skip _ _ _ _ _ _ _ Hk Hi).
    + now rewrite (checked_map_one_run _ _ _ _ _ _ _ _ Hk Hi),
                  (map_one_run _ _ _ _ _ _ _ Hk Hi).
  - now rewrite (checked_map_one_raise _ _ _ _ _ _ _ Hk), (map_one_raise _ _ _ _ _ _ Hk).
Qed.

(** ** C1: when the mapping stage skips a file *)

(** C1, as the code has it. Take a file of the input listing whose key
    derives and that the stage reaches: it has returned from every file
    listed before. Then the stage goes on with the body of its loop on
    that file, from the files as they are at that moment. It skips the
    file (the skip line, no external invocation, every file on disk left
    as it is) if and only if the index of the sorted alignment file is a
    file that exists then; whether the sorted alignment file itself exists
    is not looked at. When the index is missing the shell pipeline is
    invoked and, when that call returns, the indexing; a call that raises
    ends the stage. *)
Theorem mapping_stage_skips_iff_index_exists
    (H : host) (fatal : command -> bool -> FS -> bool)
    (dir out_sorted_bam reference : string) (fs : FS)
    (pre post : list (string * list string)) (root name key : string)
    (before after : list string) :
  os_walk H dir = pre ++ (root, before ++ name :: after) :: post ->
  filename_out_of name = Some key ->
  res (Checked.map_walk H fatal (pre ++ [(root, before)]) out_sorted_bam reference fs)
    = Ok tt ->
  let o := Checked.minimap2_mapping H fatal dir out_sorted_bam reference fs in
  let o' := Checked.map_walk H fatal (pre ++ [(root, before)]) out_sorted_bam reference fs in
  let s := Checked.map_one H fatal out_sorted_bam reference root name (fs_after o') in
  let indexed := isfile (fs_after o') (filename_bai_out_of out_sorted_bam key) in
  let pipeline := Line (cmd_minimap2_of reference (Py.path_join root name)
                          (filename_bam_out_of out_sorted_bam key)) in
  let indexing := Argv (cmd_indexing_of (filename_bam_out_of out_sorted_bam key)) in
  o = match res s with
      | Ok _ =>
          let o2 := Checked.map_walk H fatal ((root, after) :: post)
                      out_sorted_bam reference (fs_after s) in
          Outcome (res o2) (fs_after o2) (events o' ++ events s ++ events o2)
      | Raise e => Outcome (Raise e) (fs_after s) (events o' ++ events s)
      end /\
  (invocations (events s) = [] <-> indexed = true) /\
  events s =
    (if indexed then [skip_line out_sorted_bam key]
     else mapping_line key :: pipeline_call out_sorted_bam reference root name key
          :: (if fatal pipeline true (fs_after o') then []
              else [index_call out_sorted_bam key])) /\
  fs_after s =
    (if indexed then fs_after o'
     else if fatal pipeline true (fs_after o')
          then subprocess_effect H pipeline true (fs_after o')
          else subprocess_effect H indexing false
                 (subprocess_effect H pipeline true (fs_after o'))) /\
  res s =
    (if indexed then Ok tt
     else if fatal pipeline true (fs_after o') then Raise SubprocessError
          else if fatal indexing false (subprocess_effect H pipeline true (fs_after o'))
               then Raise SubprocessError else Ok tt).
Proof.
  intros Hw Hk Hok o o' s indexed pipeline indexing.
  subst o o' s indexed pipeline indexing. split.
  - unfold Checked.minimap2_mapping. rewrite Hw. unfold Checked.map_walk in *.
    rewrite (walk_step (fun root name =>
               Checked.map_one H fatal out_sorted_bam reference root name)
               pre root before name after post fs Hok).
    reflexivity.
  - set (fs1 := fs_after (Checked.map_walk H fatal (pre ++ [(root, before)])
                            out_sorted_bam reference fs)).
    destruct (isfile fs1 (filename_bai_out_of out_sorted_bam key)) eqn:Hi.
    + rewrite (checked_map_one_skip _ _ _ _ _ _ _ _ Hk Hi). cbn. tauto.
    + rewrite (checked_map_one_run _ _ _ _ _ _ _ _ Hk Hi).
      destruct (fatal (Line _) true fs1); cbn [res fs_after events].
      * repeat split; try reflexivity; discriminate.
      * repeat split; try reflexivity; discriminate.
Qed.

(** ** C8: the steps run for a file that is not indexed yet *)

(** C8, as the code has it. Take a file of the input listing whose key
    derives, that the stage reaches (it has returned from every file
    listed before) and whose index is not on disk at that moment. The
    stage then logs the file and invokes one shell line made of the
    aligner on the reference and the read file, piped through [samtools
    view -bS -F 4 -] (the flag exclusion that drops unmapped reads), piped
    into [samtools sort -o] of the sorted artifact. When that call
    returns, it invokes [samtools index] of the sorted artifact on its
    own, and goes on with the files listed after when this one returns
    too. A call that raises ends the stage at once. *)
Theorem mapping_stage_runs_pipeline_then_index
    (H : host) (fatal : command -> bool -> FS -> bool)
    (dir out_sorted_bam reference : string) (fs : FS)
    (pre post : list (string * list string)) (root name key : string)
    (before after : list string) :
  os_walk H dir = pre ++ (root, before ++ name :: after) :: post ->
  filename_out_of name = Some key ->
  res (Checked.map_walk H fatal (pre ++ [(root, before)]) out_sorted_bam reference fs)
    = Ok tt ->
  isfile (fs_after (Checked.map_walk H fatal (pre ++ [(root, before)])
                      out_sorted_bam reference fs))
         (filename_bai_out_of out_sorted_bam key) = false ->
  let o := Checked.minimap2_mapping H fatal dir out_sorted_bam reference fs in
  let o' := Checked.map_walk H fatal (pre ++ [(root, before)]) out_sorted_bam reference fs in
  let sorted := Py.path_join out_sorted_bam (key +:+ ".sort.bam") in
  let pipeline :=
    Line (Py.join " | "
            ["minimap2 -ax map-ont " +:+ reference +:+ " " +:+ Py.path_join root name;
             "samtools view -bS -F 4 -";
             "samtools sort -o " +:+ sorted]) in
  let indexing := Argv ["samtools"; "index"; sorted] in
  let fs2 := subprocess_effect H pipeline true (fs_after o') in
  let fs3 := subprocess_effect H indexing false fs2 in
  if fatal pipeline true (fs_after o') then
    o = Outcome (Raise SubprocessError) fs2
          (events o' ++ [mapping_line key; ExecuteSubprocess pipeline true])
  else if fatal indexing false fs2 then
    o = Outcome (Raise SubprocessError) fs3
          (events o' ++ [mapping_line key; ExecuteSubprocess pipeline true;
                         ExecuteSubprocess indexing false])
  else
    let o2 := Checked.map_walk H fatal ((root, after) :: post)
                out_sorted_bam reference fs3 in
    o = Outcome (res o2) (fs_after o2)
          (events o' ++ [mapping_line key; ExecuteSubprocess pipeline true;
                         ExecuteSubprocess indexing false] ++ events o2).
Proof.
  intros Hw Hk Hok Hi o o' sorted pipeline indexing fs2 fs3.
  subst o o' sorted pipeline indexing fs2 fs3.
  rewrite <- cmd_minimap2_pipeline.
  unfold Checked.minimap2_mapping. rewrite Hw. unfold Checked.map_walk in *.
  rewrite (walk_step (fun root name =>
             Checked.map_one H fatal out_sorted_bam reference root name)
             pre root before name after post fs Hok).
  rewrite (checked_map_one_run _ _ _ _ _ _ _ _ Hk Hi).
  unfold filename_bam_out_of, cmd_indexing_of, pipeline_call, index_call.
  destruct (fatal (Line _) true _); cbn [res fs_after events]; [reflexivity|].
  destruct (fatal (Argv _) false _); cbn [res fs_after events]; reflexivity.
Qed.

(** ** Concrete runs of the stage *)

Lemma mapping_stage_skips_iff_index_exists_witness :
  os_walk host_two_reads demo_dir =
    [] ++ (demo_dir, ["HQ_S1.fastq"] ++ "HQ_S2.fastq" :: []) :: [] /\
  filename_out_of "HQ_S2.fastq" = Some "S2" /\
  res (Checked.map_walk host_two_reads all_succeed ([] ++ [(demo_dir, ["HQ_S1.fastq"])])
         demo_bam demo_ref fs_index_only) = Ok tt /\
  events (Checked.map_one host_two_reads all_succeed demo_bam demo_ref demo_dir
            "HQ_S2.fastq"
            (fs_after (Checked.map_walk host_two_reads all_succeed
                         ([] ++ [(demo_dir, ["HQ_S1.fastq"])])
                         demo_bam demo_ref fs_index_only))) =
    [mapping_line "S2"; pipeline_call demo_bam demo_ref demo_dir "HQ_S2.fastq" "S2";
     index_call demo_bam "S2"] /\
  events (Checked.minimap2_mapping host_two_reads all_succeed demo_dir demo_bam demo_ref
            fs_index_only) =
    [skip_line demo_bam "S1"; mapping_line "S2";
     pipeline_call demo_bam demo_ref demo_dir "HQ_S2.fastq" "S2"; index_call demo_bam "S2"].
Proof.
  split; [reflexivity|]. split; [reflexivity|]. split; [reflexivity|].
  pose proof (mapping_stage_skips_iff_index_exists host_two_reads all_succeed demo_dir
                demo_bam demo_ref fs_index_only [] [] demo_dir "HQ_S2.fastq" "S2"
                ["HQ_S1.fastq"] [] eq_refl eq_refl eq_refl) as W.
  cbv zeta in W. destruct W as (Ho & _ & Hs & _).
  split; [exact Hs|]. rewrite Ho. reflexivity.
Defined.

(** The index alone makes the stage skip: the sorted alignment file is
    missing, the stage invokes nothing and leaves the files as they
    were. *)
Lemma mapping_stage_skips_without_alignment_file :
  ~ ((events (Checked.minimap2_mapping host_one_read all_succeed demo_dir
                demo_bam demo_ref fs_index_only) = [skip_line demo_bam "S1"] /\
      invocations (events (Checked.minimap2_mapping host_one_read all_succeed demo_dir
                             demo_bam demo_ref fs_index_only)) = [] /\
      fs_after (Checked.minimap2_mapping host_one_read all_succeed demo_dir
                  demo_bam demo_ref fs_index_only) = fs_index_only)
     <-> (isfile fs_index_only (filename_bam_out_of demo_bam "S1") = true /\
          isfile fs_index_only (filename_bai_out_of demo_bam "S1") = true)).
Proof.
  intros [Hskip _].
  destruct Hskip as [Hbam _]; [repeat split; reflexivity|].
  vm_compute in Hbam. discriminate Hbam.
Qed.

Lemma mapping_stage_runs_pipeline_then_index_witness :
  os_walk host_one_read demo_dir = [] ++ (demo_dir, [] ++ "HQ_S1.fastq" :: []) :: [] /\
  filename_out_of "HQ_S1.fastq" = Some "S1" /\
  res (Checked.map_walk host_one_read pipeline_fails ([] ++ [(demo_dir, [])])
         demo_bam demo_ref ∅) = Ok tt /\
  isfile (fs_after (Checked.map_walk host_one_read pipeline_fails ([] ++ [(demo_dir, [])])
                      demo_bam demo_ref ∅))
         (filename_bai_out_of demo_bam "S1") = false /\
  events (Checked.minimap2_mapping host_one_read all_succeed demo_dir demo_bam demo_ref ∅) =
    [mapping_line "S1";
     ExecuteSubprocess
       (Line (Py.join " | "
                ["minimap2 -ax map-ont /ref/mtb.fa /in/Samples_Fastq/Filtered_Fastq/HQ_S1.fastq";
                 "samtools view -bS -F 4 -";
                 "samtools sort -o /out/Bam/S1.sort.bam"])) true;
     ExecuteSubprocess (Argv ["samtools"; "index"; "/out/Bam/S1.sort.bam"]) false] /\
  Checked.minimap2_mapping host_one_read pipeline_fails demo_dir demo_bam demo_ref ∅ =
    Outcome (Raise SubprocessError)
      (subprocess_effect host_one_read
         (Line (cmd_minimap2_of demo_ref (Py.path_join demo_dir "HQ_S1.fastq")
                  (filename_bam_out_of demo_bam "S1"))) true ∅)
      [mapping_line "S1"; pipeline_call demo_bam demo_ref demo_dir "HQ_S1.fastq" "S1"].
Proof.
  split; [reflexivity|]. split; [reflexivity|]. split; [reflexivity|].
  split; [reflexivity|]. split.
  - exact (f_equal events
             (mapping_stage_runs_pipeline_then_index host_one_read all_succeed demo_dir
                demo_bam demo_ref ∅ [] [] demo_dir "HQ_S1.fastq" "S1" [] []
                eq_refl eq_refl eq_refl eq_refl)).
  - exact (mapping_stage_runs_pipeline_then_index host_one_read pipeline_fails demo_dir
             demo_bam demo_ref ∅ [] [] demo_dir "HQ_S1.fastq" "S1" [] []
             eq_refl eq_refl eq_refl eq_refl).
Defined.

(** A file without any alignment artifact is left unmapped when the stage
    does not reach it: [HQ_S2.fastq] is listed after [README.md], whose
    key cannot be read. And a file whose sorted alignment file is missing
    is left unmapped when its index is there. *)
Lemma mapping_stage_leaves_files_without_artifact_unmapped :
  os_walk host_readme demo_dir = [(demo_dir, ["HQ_S1.fastq"; "README.md"; "HQ_S2.fastq"])] /\
  isfile ∅ (filename_bam_out_of demo_bam "S2") = false /\
  isfile ∅ (filename_bai_out_of demo_bam "S2") = false /\
  invocations (events (Checked.minimap2_mapping host_readme all_succeed demo_dir
                         demo_bam demo_ref ∅)) =
    [pipeline_call demo_bam demo_ref demo_dir "HQ_S1.fastq" "S1"; index_call demo_bam "S1"] /\
  isfile (fs_after (Checked.minimap2_mapping host_readme all_succeed demo_dir
                      demo_bam demo_ref ∅))
         (filename_bam_out_of demo_bam "S2") = false /\
  isfile fs_index_only (filename_bam_out_of demo_bam "S1") = false /\
  invocations (events (Checked.minimap2_mapping host_one_read all_succeed demo_dir
                         demo_bam demo_ref fs_index_only)) = [].
Proof. repeat split; reflexivity. Qed.

(** ** C2: the allow-list *)

(** C2, on the code. With the allow-list [S1, S3] and the read files of
    the samples [S1, S2, S3, S4], the driver reads the two identifiers
    into [sample_list_F] and logs that the samples will be filtered; the
    list is not read again, and the run maps and indexes all four
    samples, [S2] and [S4] included. *)
Theorem allow_list_run_maps_every_discovered_sample :
  sample_list host_allow_known (extract_read_list host_allow_known demo_dir)
    = ["S1"; "S2"; "S3"; "S4"] /\
  sample_list_F host_allow_known (Some "allow.txt")
    (extract_read_list host_allow_known demo_dir) = ["S1"; "S3"] /\
  Log "Samples will be filtered"
    ∈ events (main host_allow_known (demo_args (Some "allow.txt") 4) ∅) /\
  FileToList "allow.txt"
    ∈ events (main host_allow_known (demo_args (Some "allow.txt") 4) ∅) /\
  res (main host_allow_known (demo_args (Some "allow.txt") 4) ∅) = Ok tt /\
  invocations (events (main host_allow_known (demo_args (Some "allow.txt") 4) ∅)) =
    [pipeline_call demo_bam demo_ref demo_dir "HQ_S1.fastq" "S1"; index_call demo_bam "S1";
     pipeline_call demo_bam demo_ref demo_dir "HQ_S2.fastq" "S2"; index_call demo_bam "S2";
     pipeline_call demo_bam demo_ref demo_dir "HQ_S3.fastq" "S3"; index_call demo_bam "S3";
     pipeline_call demo_bam demo_ref demo_dir "HQ_S4.fastq" "S4"; index_call demo_bam "S4"].
Proof.
  split; [reflexivity|]. split; [reflexivity|].
  split; [apply list_elem_of_In; vm_compute; tauto|].
  split; [apply list_elem_of_In; vm_compute; tauto|].
  split; reflexivity.
Qed.

(** ** C6: a chunk count that is not positive *)

(** C6, as the code has it, with the helpers as the spec describes them.
    Nothing checks the chunk count before the stages run. For every chunk
    count [N <= 0]: when the mapping stage returns, the reference index
    is asked for, and created if it was absent, and the run then fails at
    the chunking call, which writes no region list; when the mapping stage
    raises, the run ends with that error and neither the indexing nor the
    chunking is called. Either way the run fails, after the mapping stage
    has made its invocations. *)
Theorem nonpositive_chunks_fail_at_chunking_if_mapping_returns
    (H : host) (a : Args) (fs : FS) :
  (arg_chunks a <= 0)%Z ->
  let o := variant_calling H a fs in
  let om := mapping_of_run H a fs in
  res o = Raise InvalidChunks /\
  events o = [variant_banner; SamtoolsFaidx (arg_reference a);
              CreateReferenceChunks (arg_reference a) (arg_chunks a)] /\
  fs_after o = ensure_fai H (arg_reference a) fs /\
  exists_path (fs_after o) (fai_path (arg_reference a)) = true /\
  res (main H a fs) =
    match res om with Ok _ => Raise InvalidChunks | Raise e => Raise e end /\
  fs_after (main H a fs) =
    match res om with
    | Ok _ => ensure_fai H (arg_reference a) (fs_after om)
    | Raise _ => fs_after om
    end /\
  List.filter is_variant_call (events (main H a fs)) =
    match res om with
    | Ok _ => [SamtoolsFaidx (arg_reference a);
               CreateReferenceChunks (arg_reference a) (arg_chunks a)]
    | Raise _ => []
    end /\
  invocations (events (main H a fs)) = invocations (events om).
Proof.
  intros Hn o om. subst o om.
  apply Z.leb_le in Hn.
  assert (Hv : forall fs', variant_calling H a fs' =
            Outcome (Raise InvalidChunks) (ensure_fai H (arg_reference a) fs')
              [variant_banner; SamtoolsFaidx (arg_reference a);
               CreateReferenceChunks (arg_reference a) (arg_chunks a)]).
  { intros fs'. rewrite variant_calling_run, Hn. reflexivity. }
  pose proof (mapping_variant_calls H (os_walk H (in_samples_filtered_dir_of H a))
                (out_bam_dir (folders_of (output_dir_of H a))) (arg_reference a)
                (fs_at_mapping H a fs)) as Hm.
  change (map_walk H _ _ _ _) with (mapping_of_run H a fs) in Hm.
  rewrite main_invocations, main_run. cbv zeta. rewrite !Hv. cbn [res fs_after events].
  split; [reflexivity|]. split; [reflexivity|]. split; [reflexivity|]. split.
  { unfold ensure_fai, exists_path.
    destruct (fs !! fai_path (arg_reference a)) eqn:E; rewrite ?E; [reflexivity|].
    now rewrite lookup_insert_eq. }
  destruct (res (mapping_of_run H a fs)); cbn [res fs_after events];
    (split; [reflexivity|]); (split; [reflexivity|]); (split; [|reflexivity]);
    rewrite ?List.filter_app, Hm, allow_list_variant_calls; reflexivity.
Qed.

Lemma nonpositive_chunks_fail_at_chunking_if_mapping_returns_witness :
  (arg_chunks (demo_args None 0) <= 0)%Z /\
  res (main host_one_read (demo_args None 0) ∅) = Raise InvalidChunks /\
  res (main host_readme (demo_args None 0) ∅) = Raise IndexError /\
  List.filter is_variant_call (events (main host_readme (demo_args None 0) ∅)) = [].
Proof.
  assert (Hn : (arg_chunks (demo_args None 0) <= 0)%Z) by (simpl; lia).
  split; [exact Hn|].
  pose proof (nonpositive_chunks_fail_at_chunking_if_mapping_returns host_one_read
                (demo_args None 0) ∅ Hn) as W1.
  pose proof (nonpositive_chunks_fail_at_chunking_if_mapping_returns host_readme
                (demo_args None 0) ∅ Hn) as W2.
  cbv zeta in W1, W2.
  destruct W1 as (_ & _ & _ & _ & R1 & _).
  destruct W2 as (_ & _ & _ & _ & R2 & _ & F2 & _).
  split; [exact R1|]. split; [exact R2|exact F2].
Defined.

(** ** Files that share a key *)

(** With external programs that remove no file and whose [samtools
    index] leaves the index: when the stage has returned from the files
    listed before a file, and one of them has the same key, the stage
    skips the file. It logs the skip line, gives nothing to the aligner
    and goes on with the files listed after: of the read files of one
    key, in one directory or in several, only the first listed is
    mapped. *)
Theorem second_file_with_same_key_is_skipped
    (H : host) (out_sorted_bam reference : string) (fs : FS)
    (pre post : list (string * list string))
    (root1 name1 root2 name2 key : string) (before after : list string) :
  tools_keep_files H ->
  index_tool_leaves_index H ->
  filename_out_of name1 = Some key ->
  filename_out_of name2 = Some key ->
  (root1, name1) ∈ flat_listing (pre ++ [(root2, before)]) ->
  res (map_walk H (pre ++ [(root2, before)]) out_sorted_bam reference fs) = Ok tt ->
  let o' := map_walk H (pre ++ [(root2, before)]) out_sorted_bam reference fs in
  let o2 := map_walk H ((root2, after) :: post) out_sorted_bam reference (fs_after o') in
  isfile (fs_after o') (filename_bai_out_of out_sorted_bam key) = true /\
  map_one H out_sorted_bam reference root2 name2 (fs_after o') =
    Outcome (Ok tt) (fs_after o') [skip_line out_sorted_bam key] /\
  map_walk H (pre ++ (root2, before ++ name2 :: after) :: post) out_sorted_bam reference fs =
    Outcome (res o2) (fs_after o2) (events o' ++ [skip_line out_sorted_bam key] ++ events o2).
Proof.
  intros Hkeep Hidx Hk1 Hk2 Hin Hok o' o2. subst o' o2.
  pose proof (map_walk_indexes H Hkeep Hidx out_sorted_bam reference _ fs Hok) as Hall.
  assert (Hi : isfile (fs_after (map_walk H (pre ++ [(root2, before)])
                                   out_sorted_bam reference fs))
                      (filename_bai_out_of out_sorted_bam key) = true).
  { unfold all_indexed in Hall. rewrite forallb_forall in Hall.
    apply list_elem_of_In in Hin. unfold flat_listing in Hin.
    apply in_flat_map in Hin as ([r fl] & Hrf & Hn). cbn [fst snd] in Hn.
    apply in_map_iff in Hn as (n & En & Hn). injection En as <- ->.
    specialize (Hall _ Hrf). cbn [snd] in Hall.
    rewrite forallb_forall in Hall. specialize (Hall _ Hn).
    unfold indexed in Hall. now rewrite Hk1 in Hall. }
  pose proof (map_one_skip H out_sorted_bam reference root2 name2 _ key Hk2 Hi) as Hs.
  split; [exact Hi|]. split; [exact Hs|].
  unfold map_walk in *.
  rewrite (walk_step (fun root name => map_one H out_sorted_bam reference root name)
             pre root2 before name2 after post fs Hok).
  rewrite Hs. reflexivity.
Qed.

Lemma second_file_with_same_key_is_skipped_witness :
  tools_keep_files
    (host_index_writer ["HQ_S1_run1.fastq"; "HQ_S2.fastq"; "HQ_S1_run2.fastq"]) /\
  index_tool_leaves_index
    (host_index_writer ["HQ_S1_run1.fastq"; "HQ_S2.fastq"; "HQ_S1_run2.fastq"]) /\
  filename_out_of "HQ_S1_run1.fastq" = Some "S1" /\
  filename_out_of "HQ_S1_run2.fastq" = Some "S1" /\
  (demo_dir, "HQ_S1_run1.fastq")
    ∈ flat_listing ([] ++ [(demo_dir, ["HQ_S1_run1.fastq"; "HQ_S2.fastq"])]) /\
  res (map_walk (host_index_writer ["HQ_S1_run1.fastq"; "HQ_S2.fastq"; "HQ_S1_run2.fastq"])
         ([] ++ [(demo_dir, ["HQ_S1_run1.fastq"; "HQ_S2.fastq"])])
         demo_bam demo_ref ∅) = Ok tt /\
  events (map_walk
            (host_index_writer ["HQ_S1_run1.fastq"; "HQ_S2.fastq"; "HQ_S1_run2.fastq"])
            ([] ++ (demo_dir, ["HQ_S1_run1.fastq"; "HQ_S2.fastq"] ++ "HQ_S1_run2.fastq" :: [])
                :: [])
            demo_bam demo_ref ∅) =
    [mapping_line "S1";
     pipeline_call demo_bam demo_ref demo_dir "HQ_S1_run1.fastq" "S1";
     index_call demo_bam "S1";
     mapping_line "S2";
     pipeline_call demo_bam demo_ref demo_dir "HQ_S2.fastq" "S2";
     index_call demo_bam "S2";
     skip_line demo_bam "S1"].
Proof.
  split; [apply index_writer_keeps_files|].
  split; [apply index_writer_leaves_index|].
  split; [reflexivity|]. split; [reflexivity|].
  split; [apply list_elem_of_here|]. split; [reflexivity|].
  pose proof (second_file_with_same_key_is_skipped
                (host_index_writer ["HQ_S1_run1.fastq"; "HQ_S2.fastq"; "HQ_S1_run2.fastq"])
                demo_bam demo_ref ∅ [] [] demo_dir "HQ_S1_run1.fastq" demo_dir
                "HQ_S1_run2.fastq" "S1" ["HQ_S1_run1.fastq"; "HQ_S2.fastq"] []
                (index_writer_keeps_files _) (index_writer_leaves_index _)
                eq_refl eq_refl (list_elem_of_here _ _) eq_refl) as W.
  cbv zeta in W. destruct W as (_ & _ & W). rewrite W. reflexivity.
Defined.
